(** * TheChernoOpenGL: the shader pipeline of [Application.cpp]

    A shallow embedding of [src/TheChernoOpenGL/Application.cpp]:
    the shader source splitter [ParseShader], the compiler and linker
    wrappers [CompileShader] and [CreateShader], the diagnostic macro
    [GLCall] with [GLClearError] and [GLLogCall], and the driver [main].

    The C++ standard library pieces the code relies on ([std::string::find],
    [std::getline] on a [std::ifstream], [operator<<] on a
    [std::stringstream]) are written out below; OpenGL, GLFW and GLEW are
    external and enter as an interface. *)

From Stdlib Require Import String Ascii List ZArith Lia Bool Arith.
From Stdlib Require Import Floats.SpecFloat DecimalString.
From Equations Require Import Equations.
From Equations.Prop Require Import Logic.
Import ListNotations.

Local Open Scope string_scope.

(* ===================================================================== *)
(** ** [std::string] *)
(* ===================================================================== *)

Module Str.

(** The character written by [std::endl] and consumed by [std::getline]. *)
Definition newline : ascii := "010"%char.

Definition endl : string := String newline "".

(** [s.find(pat)]: position of the first occurrence of [pat] in [s];
    [None] is [std::string::npos]. *)
Definition find (pat s : string) : option nat := index 0 pat s.

(** [s.find(pat) != std::string::npos] *)
Definition found (pat s : string) : bool :=
  match find pat s with Some _ => true | None => false end.

(** [pat] occurs in [s] as a contiguous substring. *)
Definition occurs (pat s : string) : Prop :=
  exists a b, s = a ++ pat ++ b.

(** [s] holds the character [c]. *)
Fixpoint mem (c : ascii) (s : string) : bool :=
  match s with
  | "" => false
  | String d s' => Ascii.eqb c d || mem c s'
  end.

End Str.

(* ===================================================================== *)
(** ** [std::ifstream] and [std::getline] *)
(* ===================================================================== *)

(** The files the process can open: a path maps to the bytes of the file, or
    to nothing when the file does not exist or cannot be read. *)
Definition filesystem := string -> option string.

(** An input stream: the bytes not yet read and the two state bits the
    loop of [ParseShader] depends on. *)
Record ifstream := mk_ifstream {
  rdbuf : string;
  eofbit : bool;
  failbit : bool
}.

(** [std::ifstream stream(filepath)]: opening a missing file sets
    [failbit]. *)
Definition ifstream_open (fs : filesystem) (filepath : string) : ifstream :=
  match fs filepath with
  | Some bytes => mk_ifstream bytes false false
  | None => mk_ifstream "" false true
  end.

(** Characters up to the first newline; the rest after that newline, or
    [None] when the end of the input came first. *)
Fixpoint read_line (s : string) : string * option string :=
  match s with
  | "" => ("", None)
  | String c s' =>
      if Ascii.eqb c Str.newline then ("", Some s')
      else let (l, r) := read_line s' in (String c l, r)
  end.

(** [std::getline(stream, line)]: the line read and the stream after the
    call. A stream that is already at its end or failed fails; so does one
    from which nothing could be extracted. The delimiter is extracted and
    dropped. *)
Definition getline (stream : ifstream) : string * ifstream :=
  if failbit stream || eofbit stream
  then ("", mk_ifstream (rdbuf stream) (eofbit stream) true)
  else match read_line (rdbuf stream) with
       | (line, Some rest) => (line, mk_ifstream rest false false)
       | (line, None) =>
           (line, mk_ifstream "" true (match line with "" => true | _ => false end))
       end.

(** The stream converted to [bool], as the [while] condition does. *)
Definition good (stream : ifstream) : bool := negb (failbit stream).

(** What is left to read bounds the number of successful [getline]s. *)
Definition remaining (stream : ifstream) : nat :=
  if failbit stream || eofbit stream then 0 else S (String.length (rdbuf stream)).

Lemma read_line_rest s l r :
  read_line s = (l, Some r) -> String.length r < String.length s.
Proof.
  revert l r. induction s as [|c s IH]; intros l r; simpl.
  - discriminate.
  - destruct (Ascii.eqb c Str.newline).
    + intros [= _ <-]. lia.
    + destruct (read_line s) as [l' r'] eqn:E. intros [= _ ->].
      specialize (IH _ _ eq_refl). lia.
Qed.

Lemma getline_remaining stream line stream' :
  getline stream = (line, stream') -> good stream' = true ->
  remaining stream' < remaining stream.
Proof.
  unfold getline, good, remaining.
  destruct (failbit stream || eofbit stream) eqn:B.
  - intros [= _ <-]. simpl. discriminate.
  - destruct (read_line (rdbuf stream)) as [l [r|]] eqn:E.
    + intros [= _ <-] _. simpl. apply read_line_rest in E. lia.
    + intros [= _ <-] _. simpl. rewrite orb_true_r. lia.
Qed.

(** The lines a stream yields to repeated [getline] calls. *)
Equations stream_lines (stream : ifstream) : list string
  by wf (remaining stream) lt :=
  stream_lines stream with inspect (getline stream) => {
    | exist _ (line, stream') Hget with inspect (good stream') => {
        | exist _ true Hgood := line :: stream_lines stream'
        | exist _ false _ := [] } }.
Next Obligation.
  eapply getline_remaining; eauto.
Qed.

(* ===================================================================== *)
(** ** [ParseShader] *)
(* ===================================================================== *)

(** [enum class ShaderType { NONE = -1, VERTEX = 0, FRAGMENT = 1 }] *)
Inductive ShaderType := NONE | VERTEX | FRAGMENT.

(** The cast [(int)type]. *)
Definition ShaderType_to_int (type : ShaderType) : Z :=
  match type with
  | NONE => -1
  | VERTEX => 0
  | FRAGMENT => 1
  end.

Record ShaderProgramSource := mk_ShaderProgramSource {
  VertexSource : string;
  FragmentSource : string
}.

(** A run of [ParseShader] either returns, or subscripts the array [ss]
    outside its bounds, which C++ leaves undefined. *)
Inductive outcome (A : Type) : Type :=
| Returns (a : A)
| OutOfBounds (subscript : Z).
Arguments Returns {A} a.
Arguments OutOfBounds {A} subscript.

Definition bind {A B} (m : outcome A) (k : A -> outcome B) : outcome B :=
  match m with
  | Returns a => k a
  | OutOfBounds i => OutOfBounds i
  end.

(** [std::stringstream ss[2]], each stream as the text written to it. *)
Definition buffers := list string.

Definition ss_init : buffers := [""; ""].

Fixpoint set_nth (n : nat) (ss : buffers) (text : string) : buffers :=
  match ss, n with
  | [], _ => []
  | _ :: tl, O => text :: tl
  | hd :: tl, S n' => hd :: set_nth n' tl text
  end.

(** [ss[i].str()] *)
Definition ss_str (ss : buffers) (i : nat) : string := nth i ss "".

(** [ss[i] << line << std::endl], for an [int] subscript [i]. *)
Definition ss_put (ss : buffers) (i : Z) (line : string) : outcome buffers :=
  if ((0 <=? i)%Z && (i <? Z.of_nat (List.length ss))%Z)%bool
  then Returns (set_nth (Z.to_nat i) ss
                  (ss_str ss (Z.to_nat i) ++ line ++ Str.endl))
  else OutOfBounds i.

(** The body of the [while] loop, for the line just read. *)
Definition ParseShader_body (line : string) (type : ShaderType) (ss : buffers)
  : outcome (ShaderType * buffers) :=
  if Str.found "#shader" line then
    if Str.found "vertex" line then Returns (VERTEX, ss)
    else if Str.found "fragment" line then Returns (FRAGMENT, ss)
    else Returns (type, ss)
  else
    bind (ss_put ss (ShaderType_to_int type) line)
         (fun ss' => Returns (type, ss')).

(** [while (getline(stream, line)) { ... }] *)
Equations ParseShader_loop (stream : ifstream) (type : ShaderType) (ss : buffers)
  : outcome (ShaderType * buffers) by wf (remaining stream) lt :=
  ParseShader_loop stream type ss with inspect (getline stream) => {
    | exist _ (line, stream') Hget with inspect (good stream') => {
        | exist _ false _ := Returns (type, ss)
        | exist _ true Hgood with ParseShader_body line type ss => {
            | Returns (type', ss') := ParseShader_loop stream' type' ss'
            | OutOfBounds i := OutOfBounds i } } }.
Next Obligation.
  eapply getline_remaining; eauto.
Qed.

Definition ParseShader (fs : filesystem) (filepath : string)
  : outcome ShaderProgramSource :=
  let stream := ifstream_open fs filepath in
  bind (ParseShader_loop stream NONE ss_init)
       (fun '(_, ss) => Returns (mk_ShaderProgramSource (ss_str ss 0) (ss_str ss 1))).

(** A file system holding one file. *)
Definition single_file (path bytes : string) : filesystem :=
  fun p => if String.eqb p path then Some bytes else None.

(** The loop body iterated over a list of lines. *)
Fixpoint ParseShader_lines (lines : list string) (type : ShaderType) (ss : buffers)
  : outcome (ShaderType * buffers) :=
  match lines with
  | [] => Returns (type, ss)
  | line :: rest =>
      bind (ParseShader_body line type ss)
           (fun '(type', ss') => ParseShader_lines rest type' ss')
  end.

(** A file written as lines, each closed by a newline. *)
Fixpoint unlines (lines : list string) : string :=
  match lines with
  | [] => ""
  | l :: rest => l ++ Str.endl ++ unlines rest
  end.

(** A sample file in the format, for running the program. *)
Definition basic_shader : string :=
  unlines [ "#shader vertex"; "#version 330 core"; "";
            "layout(location = 0) in vec4 position;"; "";
            "void main() {"; "   gl_Position = position;"; "}"; "";
            "#shader fragment"; "#version 330 core"; "";
            "layout(location = 0) out vec4 color;"; "uniform vec4 u_Color;"; "";
            "void main() {"; "   color = u_Color;"; "}" ].

(* ===================================================================== *)
(** ** The shader file format, as [ParseShader] reads it *)
(* ===================================================================== *)

(** How the loop body treats a line: a line holding the token [#shader] is
    a directive; the stage keyword it holds, [vertex] before [fragment],
    makes it a section marker. Every other line is content. *)
Inductive line_kind := VertexMarker | FragmentMarker | Directive | Content.

Definition classify (line : string) : line_kind :=
  if Str.found "#shader" line then
    if Str.found "vertex" line then VertexMarker
    else if Str.found "fragment" line then FragmentMarker
    else Directive
  else Content.

Definition line_kind_eqb (a b : line_kind) : bool :=
  match a, b with
  | VertexMarker, VertexMarker | FragmentMarker, FragmentMarker
  | Directive, Directive | Content, Content => true
  | _, _ => false
  end.

(** Number of lines of kind [k]. *)
Definition count_kind (k : line_kind) (lines : list string) : nat :=
  List.length (filter (fun l => line_kind_eqb (classify l) k) lines).

(** Where a reader of a well-formed file stands: before the first section
    marker, just after a section marker, or inside a section that has
    content. *)
Inductive position := BeforeSections | SectionOpened | SectionFilled.

(** A well-formed shader file has no content line before its first section
    marker, and at least one content line in each section: after a section
    marker, content comes before the next section marker and before the
    end of the file. Lines that hold [#shader] without a stage keyword may
    stand anywhere. *)
Fixpoint well_formed_from (pos : position) (lines : list string) : bool :=
  match lines with
  | [] => match pos with SectionOpened => false | _ => true end
  | line :: rest =>
      match classify line with
      | Content =>
          match pos with
          | BeforeSections => false
          | _ => well_formed_from SectionFilled rest
          end
      | Directive => well_formed_from pos rest
      | VertexMarker | FragmentMarker =>
          match pos with
          | SectionOpened => false
          | _ => well_formed_from SectionOpened rest
          end
      end
  end.

Definition well_formed (lines : list string) : bool :=
  well_formed_from BeforeSections lines.

(** The buffer [ss[(int)type]] grown by [line] and the newline. *)
Definition appended (type : ShaderType) (ss : buffers) (line : string) : buffers :=
  match type, ss with
  | VERTEX, [v; f] => [v ++ line ++ Str.endl; f]
  | FRAGMENT, [v; f] => [v; f ++ line ++ Str.endl]
  | _, _ => ss
  end.

(** The section in force after a directive line. *)
Definition section_after (line : string) (type : ShaderType) : ShaderType :=
  if Str.found "vertex" line then VERTEX
  else if Str.found "fragment" line then FRAGMENT
  else type.

(** A line the loop body appends to a buffer. *)
Definition is_content (line : string) : Prop := Str.found "#shader" line = false.

(** No content line comes before the first section marker. *)
Fixpoint headed (lines : list string) : bool :=
  match lines with
  | [] => true
  | line :: rest =>
      match classify line with
      | Content => false
      | Directive => headed rest
      | VertexMarker | FragmentMarker => true
      end
  end.

(** The characters the content lines take, each with its newline. *)
Fixpoint content_size (lines : list string) : nat :=
  match lines with
  | [] => 0
  | line :: rest =>
      (if Str.found "#shader" line then 0 else S (String.length line))
      + content_size rest
  end.

(* ===================================================================== *)
(** ** OpenGL, GLFW and GLEW, as seen from the program *)
(* ===================================================================== *)

Local Open Scope Z_scope.

Definition GLenum := Z.
Definition GLuint := Z.
Definition GLint := Z.
Definition GLsizei := Z.

(** C [float] is IEEE binary32 and [double] is IEEE binary64. *)
Definition float := spec_float.
Definition double := spec_float.

(** Constants of [<GL/glew.h>] and [<GLFW/glfw3.h>] that the program names,
    with the values those headers give them. *)
Definition GL_NO_ERROR : GLenum := 0.
Definition GL_FALSE : GLint := 0.
Definition GL_TRIANGLES : GLenum := 4.
Definition GL_UNSIGNED_INT : GLenum := 5125.
Definition GL_FLOAT : GLenum := 5126.
Definition GL_VERSION : GLenum := 7938.
Definition GL_COLOR_BUFFER_BIT : GLenum := 16384.
Definition GL_ARRAY_BUFFER : GLenum := 34962.
Definition GL_ELEMENT_ARRAY_BUFFER : GLenum := 34963.
Definition GL_STATIC_DRAW : GLenum := 35044.
Definition GL_FRAGMENT_SHADER : GLenum := 35632.
Definition GL_VERTEX_SHADER : GLenum := 35633.
Definition GL_COMPILE_STATUS : GLenum := 35713.
Definition GL_LINK_STATUS : GLenum := 35714.
Definition GL_INFO_LOG_LENGTH : GLenum := 35716.
Definition GLEW_OK : GLenum := 0.
Definition NULL : Z := 0.

(** The array handed to [glBufferData]. *)
Inductive client_data :=
| FloatArray (data : list float)
| UIntArray (data : list Z).

(** The library calls the program makes, each with the type of what it
    gives back (return value and out-parameters). [glGetProgramiv] is the
    query for the link status; the program never makes it. *)
Inductive API : Type -> Type :=
| glGetError : API GLenum
| glGetString (name : GLenum) : API string
| glCreateShader (type : GLenum) : API GLuint
| glShaderSource (shader : GLuint) (count : GLsizei) (src : list string) : API unit
| glCompileShader (shader : GLuint) : API unit
| glGetShaderiv (shader : GLuint) (pname : GLenum) : API GLint
| glGetShaderInfoLog (shader : GLuint) (bufSize : GLsizei) : API (GLsizei * string)
| glDeleteShader (shader : GLuint) : API unit
| glCreateProgram : API GLuint
| glAttachShader (program shader : GLuint) : API unit
| glLinkProgram (program : GLuint) : API unit
| glValidateProgram (program : GLuint) : API unit
| glGetProgramiv (program : GLuint) (pname : GLenum) : API GLint
| glUseProgram (program : GLuint) : API unit
| glDeleteProgram (program : GLuint) : API unit
| glGetUniformLocation (program : GLuint) (name : string) : API GLint
| glUniform4f (location : GLint) (v0 v1 v2 v3 : float) : API unit
| glGenBuffers (n : GLsizei) : API GLuint
| glBindBuffer (target : GLenum) (buffer : GLuint) : API unit
| glBufferData (target : GLenum) (size : Z) (data : client_data) (usage : GLenum) : API unit
| glEnableVertexAttribArray (index : GLuint) : API unit
| glVertexAttribPointer (index : GLuint) (size : GLint) (type : GLenum)
    (normalized : Z) (stride : GLsizei) (pointer : Z) : API unit
| glClear (mask : Z) : API unit
| glDrawElements (mode : GLenum) (count : GLsizei) (type : GLenum) (indices : Z) : API unit
| glfwInit : API Z
| glfwCreateWindow (width height : Z) (title : string) (monitor share : Z) : API Z
| glfwTerminate : API unit
| glfwMakeContextCurrent (window : Z) : API unit
| glfwSwapInterval (interval : Z) : API unit
| glfwGetTime : API double
| glfwWindowShouldClose (window : Z) : API Z
| glfwSwapBuffers (window : Z) : API unit
| glfwPollEvents : API unit
| glewInit : API GLenum.

(** A call as it appears in the record of calls made. *)
Inductive logged : Type :=
| Call {A : Type} (call : API A).

(** What a library call does: its result, the library's next state, and
    the OpenGL error flags it raises. An error code is never [GL_NO_ERROR],
    hence [positive]. *)
Record reply (D A : Type) := mk_reply {
  answer : A;
  next : D;
  raised : list positive
}.
Arguments mk_reply {D A} answer next raised.
Arguments answer {D A} r.
Arguments next {D A} r.
Arguments raised {D A} r.

(** How a run can end: with a value, in the breakpoint trap of
    [__debugbreak()], in undefined behaviour, or still running when the
    bound on loop iterations is reached. *)
Inductive result (A : Type) : Type :=
| Value (a : A)
| Trapped
| Undefined
| StillRunning.
Arguments Value {A} a.
Arguments Trapped {A}.
Arguments Undefined {A}.
Arguments StillRunning {A}.

(** The libraries: a state and the effect of each call on it. All of the
    development holds for every such implementation. *)
Class Libraries (D : Type) : Type :=
  respond : forall A : Type, API A -> D -> reply D A.

(** The world the program runs in. *)
Record world (D : Type) := mk_world {
  lib : D;                    (* state of the libraries *)
  flags : list positive;      (* OpenGL error flags raised and not yet read *)
  calls : list logged;        (* library calls made, oldest first *)
  cout : string;
  cerr : string;
  files : filesystem
}.
Arguments mk_world {D} lib flags calls cout cerr files.
Arguments lib {D} w.
Arguments flags {D} w.
Arguments calls {D} w.
Arguments cout {D} w.
Arguments cerr {D} w.
Arguments files {D} w.

Definition M (D A : Type) : Type := world D -> result A * world D.

Definition ret {D A} (a : A) : M D A := fun w => (Value a, w).

Definition mbind {D A B} (m : M D A) (k : A -> M D B) : M D B :=
  fun w =>
    match m w with
    | (Value a, w') => k a w'
    | (Trapped, w') => (Trapped, w')
    | (Undefined, w') => (Undefined, w')
    | (StillRunning, w') => (StillRunning, w')
    end.

Notation "x <- m ;; k" := (mbind m (fun x => k))
  (at level 61, m at next level, right associativity).
Notation "m ;; k" := (mbind m (fun _ => k))
  (at level 61, right associativity).

(** [std::cout << s] and [std::cerr << s] *)
Definition cout_put {D} (s : string) : M D unit :=
  fun w => (Value tt,
            mk_world (lib w) (flags w) (calls w) (cout w ++ s) (cerr w) (files w)).

Definition cerr_put {D} (s : string) : M D unit :=
  fun w => (Value tt,
            mk_world (lib w) (flags w) (calls w) (cout w) (cerr w ++ s) (files w)).

(** [operator<<] for [int] and [unsigned int]: decimal digits. *)
Definition decimal (z : Z) : string := NilZero.string_of_int (Z.to_int z).

(** [__debugbreak()] *)
Definition __debugbreak {D} : M D unit := fun w => (Trapped, w).

(** The record of a call just made. *)
Definition log {D A} (call : API A) (w : world D) : list logged :=
  (calls w ++ [Call call])%list.

Section Program.
Context {D : Type} {libraries : Libraries D}.

(** One library call. [glGetError] returns one raised flag and clears it,
    or [GL_NO_ERROR] when none is raised; every other call is answered by
    the library and may raise flags. *)
Definition api {A} (call : API A) : M D A :=
  fun w =>
    match call in API T return result T * world D with
    | glGetError =>
        match flags w with
        | [] =>
            (Value GL_NO_ERROR,
             mk_world (lib w) [] (log glGetError w) (cout w) (cerr w) (files w))
        | e :: rest =>
            (Value (Zpos e),
             mk_world (lib w) rest (log glGetError w) (cout w) (cerr w) (files w))
        end
    | call' =>
        let r := respond _ call' (lib w) in
        (Value (answer r),
         mk_world (next r) (flags w ++ raised r) (log call' w)
                  (cout w) (cerr w) (files w))
    end.

(** [#define ASSERT(x) if (!(x)) __debugbreak();] *)
Definition ASSERT (x : bool) : M D unit :=
  if negb x then __debugbreak else ret tt.

Lemma glGetError_flags (w w' : world D) e :
  api glGetError w = (Value e, w') -> (e =? GL_NO_ERROR) = false ->
  (List.length (flags w') < List.length (flags w))%nat.
Proof.
  unfold api. destruct (flags w) as [|e' rest] eqn:E.
  - intros [= <- _]. discriminate.
  - intros [= _ <-] _. simpl. lia.
Qed.

(** [static void GLClearError() { while (glGetError() != GL_NO_ERROR); }] *)
Equations GLClearError (w : world D) : result unit * world D
  by wf (List.length (flags w)) lt :=
  GLClearError w with inspect (api glGetError w) => {
    | exist _ (Value e, w') Hcall with inspect (e =? GL_NO_ERROR) => {
        | exist _ true _ := (Value tt, w')
        | exist _ false Hne := GLClearError w' }
    | exist _ (Trapped, w') _ := (Trapped, w')
    | exist _ (Undefined, w') _ := (Undefined, w')
    | exist _ (StillRunning, w') _ := (StillRunning, w') }.
Next Obligation.
  eapply glGetError_flags; eauto.
Qed.

(** [GLLogCall]: the [while] body returns on its first pass, so at most one
    flag is read. *)
Definition GLLogCall (function file : string) (line : Z) : M D bool :=
  error <- api glGetError ;;
  if negb (error =? 0) then
    cout_put ("[OpenGL Error] (" ++ decimal error ++ ") in file " ++ file
              ++ " on function " ++ function ++ " at line " ++ decimal line
              ++ Str.endl) ;;
    ret false
  else ret true.

(** [#define GLCall(x) GLClearError(); x; ASSERT(GLLogCall(#x, __FILE__, __LINE__))]
    with [function] the text of [x], and [file] and [line] the place of the
    macro call. The value is what the statement [x] binds. *)
Definition GLCall {A} (x : M D A) (function file : string) (line : Z) : M D A :=
  GLClearError ;;
  a <- x ;;
  ok <- GLLogCall function file line ;;
  ASSERT ok ;;
  ret a.

(** A run that has reached undefined behaviour. *)
Definition undefined {A} : M D A := fun w => (Undefined, w).

(** A run cut off by the bound on the number of frames. *)
Definition still_running {A} : M D A := fun w => (StillRunning, w).

(** [CompileShader]. [message] is a buffer of [length] bytes from [alloca]:
    a negative [length] asks [alloca] for more than the stack holds; into a
    buffer of no bytes [glGetShaderInfoLog] writes nothing, and
    [std::cerr << message] then reads what was never written. Into a buffer
    of at least one byte the library writes a text closed by a NUL, the
    second component of its answer, and that text is what is printed. The
    count that the library writes back into [length] is not read again:
    [length] below is the size asked of [alloca]. *)
Definition CompileShader (type : GLenum) (source : string) : M D GLuint :=
  id <- api (glCreateShader type) ;;
  api (glShaderSource id 1 [source]) ;;
  api (glCompileShader id) ;;
  result <- api (glGetShaderiv id GL_COMPILE_STATUS) ;;
  if result =? GL_FALSE then
    length <- api (glGetShaderiv id GL_INFO_LOG_LENGTH) ;;
    if length <? 0 then undefined else
    written <- api (glGetShaderInfoLog id length) ;;
    let message := snd written in
    cerr_put ("Failed to compile "
              ++ (if type =? GL_VERTEX_SHADER then "vertex" else "fragment")
              ++ Str.endl) ;;
    if length =? 0 then undefined else
    cerr_put (message ++ Str.endl) ;;
    api (glDeleteShader id) ;;
    ret 0
  else ret id.

(** [CreateShader] *)
Definition CreateShader (vertexShader fragmentShader : string) : M D GLuint :=
  program <- api glCreateProgram ;;
  vs <- CompileShader GL_VERTEX_SHADER vertexShader ;;
  fs <- CompileShader GL_FRAGMENT_SHADER fragmentShader ;;
  api (glAttachShader program vs) ;;
  api (glAttachShader program fs) ;;
  api (glLinkProgram program) ;;
  api (glValidateProgram program) ;;
  api (glDeleteShader vs) ;;
  api (glDeleteShader fs) ;;
  ret program.

(** [float] and [double] arithmetic. [f32_lit num den] is the [float]
    literal of decimal value [num/den], rounded to nearest. *)
Definition f32_add : float -> float -> float := SFadd 24 128.
Definition f32_lt : float -> float -> bool := SFltb.
Definition f32_neg : float -> float := SFopp.
Definition f32_lit (num den : Z) : float :=
  SFdiv 24 128 (binary_normalize 24 128 num 0 false)
               (binary_normalize 24 128 den 0 false).
Definition f32_zero : float := S754_zero false.

Definition f64_sub : double -> double -> double := SFsub 53 1024.
Definition f64_le : double -> double -> bool := SFleb.
Definition f64_one : double := binary_normalize 53 1024 1 0 false.

Definition INT_MAX : Z := 2147483647.

(** The text of a string literal inside a stringified macro argument. *)
Definition quoted (s : string) : string :=
  String (ascii_of_nat 34) (s ++ String (ascii_of_nat 34) "").

(** [ParseShader] inside the program: it reads the files of the world, and
    its out-of-bounds subscript is undefined behaviour of the run. *)
Definition run_ParseShader (filepath : string) : M D ShaderProgramSource :=
  fun w =>
    match ParseShader (files w) filepath with
    | Returns source => (Value source, w)
    | OutOfBounds _ => (Undefined, w)
    end.

(** [GetFPS]; the two reference parameters come back as the result. *)
Definition GetFPS (frameCount : Z) (previousTime : double) : M D (Z * double) :=
  currentTime <- api glfwGetTime ;;
  frameCount <- (if frameCount =? INT_MAX then undefined
                 else ret (frameCount + 1)) ;;
  if f64_le f64_one (f64_sub currentTime previousTime) then
    cout_put ("FPS: " ++ decimal frameCount ++ Str.endl) ;;
    ret (0, currentTime)
  else ret (frameCount, previousTime).

(** The locals of [main] that live across frames. *)
Record frame_state := mk_frame_state {
  r : float; r_increment : float;
  g : float; g_increment : float;
  b : float; b_increment : float;
  previousTime : double;
  frameCount : Z
}.

(** The body of the render loop. *)
Definition frame (file : string) (window : Z) (location : GLint)
    (st : frame_state) : M D frame_state :=
  fps <- GetFPS (frameCount st) (previousTime st) ;;
  api (glClear GL_COLOR_BUFFER_BIT) ;;
  let r_increment :=
    if f32_lt (f32_lit 1 1) (r st) then f32_neg (f32_lit 5 100)
    else if f32_lt (r st) f32_zero then f32_lit 5 100
    else r_increment st in
  let g_increment :=
    if f32_lt (f32_lit 1 1) (g st) then f32_neg (f32_lit 1 100)
    else if f32_lt (g st) f32_zero then f32_lit 1 100
    else g_increment st in
  let b_increment :=
    if f32_lt (f32_lit 1 1) (b st) then f32_neg (f32_lit 3 100)
    else if f32_lt (b st) f32_zero then f32_lit 3 100
    else b_increment st in
  let r := f32_add (r st) r_increment in
  let g := f32_add (g st) g_increment in
  let b := f32_add (b st) b_increment in
  GLCall (api (glUniform4f location r g b (f32_lit 1 1)))
         "glUniform4f(location, r, g, b, 1.0f)" file 205 ;;
  GLCall (api (glDrawElements GL_TRIANGLES 6 GL_UNSIGNED_INT NULL))
         "glDrawElements(GL_TRIANGLES, 6, GL_UNSIGNED_INT, nullptr)" file 206 ;;
  api (glfwSwapBuffers window) ;;
  api glfwPollEvents ;;
  ret (mk_frame_state r r_increment g g_increment b b_increment
                      (snd fps) (fst fps)).

(** [while (!glfwWindowShouldClose(window)) { ... }], for at most [frames]
    frames. *)
Fixpoint render_loop (frames : nat) (file : string) (window : Z)
    (location : GLint) (st : frame_state) : M D unit :=
  close <- api (glfwWindowShouldClose window) ;;
  if close =? 0 then
    match frames with
    | O => still_running
    | S frames' =>
        st' <- frame file window location st ;;
        render_loop frames' file window location st'
    end
  else ret tt.

(** [main], with [file] the value of [__FILE__] and [frames] the bound on
    the number of frames of the run. The result is the [int] returned. *)
Definition main (frames : nat) (file : string) : M D Z :=
  init <- api glfwInit ;;
  if init =? 0 then ret (-1) else
  window <- api (glfwCreateWindow 640 480 "Hello World" NULL NULL) ;;
  if window =? NULL then
    api glfwTerminate ;;
    ret (-1)
  else
  api (glfwMakeContextCurrent window) ;;
  api (glfwSwapInterval 0) ;;
  glew <- api glewInit ;;
  if negb (glew =? GLEW_OK) then
    cerr_put ("[ERROR] Error initializing GLEW" ++ Str.endl) ;;
    ret (-1)
  else
  version <- api (glGetString GL_VERSION) ;;
  cout_put (version ++ Str.endl) ;;
  let vertices := [ f32_zero; f32_zero;
                    f32_lit 5 10; f32_zero;
                    f32_lit 5 10; f32_lit 5 10;
                    f32_zero; f32_lit 5 10 ] in
  let indices := [ 0; 1; 2; 0; 3; 2 ] in
  buffer <- api (glGenBuffers 1) ;;
  api (glBindBuffer GL_ARRAY_BUFFER buffer) ;;
  api (glBufferData GL_ARRAY_BUFFER (4 * 2 * 4) (FloatArray vertices) GL_STATIC_DRAW) ;;
  api (glEnableVertexAttribArray 0) ;;
  api (glVertexAttribPointer 0 2 GL_FLOAT GL_FALSE (2 * 4) 0) ;;
  ibo <- api (glGenBuffers 1) ;;
  api (glBindBuffer GL_ELEMENT_ARRAY_BUFFER ibo) ;;
  api (glBufferData GL_ELEMENT_ARRAY_BUFFER (6 * 4) (UIntArray indices) GL_STATIC_DRAW) ;;
  source <- run_ParseShader "res/shaders/basic.shader" ;;
  shader <- CreateShader (VertexSource source) (FragmentSource source) ;;
  api (glUseProgram shader) ;;
  location <- GLCall (api (glGetUniformLocation shader "u_Color"))
                ("int location = glGetUniformLocation(shader, "
                 ++ quoted "u_Color" ++ ")") file 162 ;;
  ASSERT (negb (location =? -1)) ;;
  GLCall (api (glUniform4f location (f32_lit 5 10) (f32_lit 3 10)
                           (f32_lit 8 10) (f32_lit 1 1)))
         "glUniform4f(location, 0.5f, 0.3f, 0.8f, 1.0f)" file 164 ;;
  previousTime <- api glfwGetTime ;;
  render_loop frames file window location
    (mk_frame_state f32_zero (f32_lit 5 100)
                    f32_zero (f32_lit 1 100)
                    (f32_lit 1 1) (f32_lit 3 10)
                    previousTime 0) ;;
  api (glDeleteProgram shader) ;;
  api glfwTerminate ;;
  ret 0.

(** The calls of [main] from [glfwInit] to the second [glBufferData], in
    line, without the three early returns: what [main] has done when it
    comes to read the shader file. The result is the window. *)
Definition main_prelude : M D Z :=
  init <- api glfwInit ;;
  window <- api (glfwCreateWindow 640 480 "Hello World" NULL NULL) ;;
  api (glfwMakeContextCurrent window) ;;
  api (glfwSwapInterval 0) ;;
  glew <- api glewInit ;;
  version <- api (glGetString GL_VERSION) ;;
  cout_put (version ++ Str.endl) ;;
  let vertices := [ f32_zero; f32_zero;
                    f32_lit 5 10; f32_zero;
                    f32_lit 5 10; f32_lit 5 10;
                    f32_zero; f32_lit 5 10 ] in
  let indices := [ 0; 1; 2; 0; 3; 2 ] in
  buffer <- api (glGenBuffers 1) ;;
  api (glBindBuffer GL_ARRAY_BUFFER buffer) ;;
  api (glBufferData GL_ARRAY_BUFFER (4 * 2 * 4) (FloatArray vertices) GL_STATIC_DRAW) ;;
  api (glEnableVertexAttribArray 0) ;;
  api (glVertexAttribPointer 0 2 GL_FLOAT GL_FALSE (2 * 4) 0) ;;
  ibo <- api (glGenBuffers 1) ;;
  api (glBindBuffer GL_ELEMENT_ARRAY_BUFFER ibo) ;;
  api (glBufferData GL_ELEMENT_ARRAY_BUFFER (6 * 4) (UIntArray indices) GL_STATIC_DRAW) ;;
  ret window.

End Program.

(* ===================================================================== *)
(** ** A scripted implementation of the libraries, for running the program *)
(* ===================================================================== *)

(** The script: which initialisations succeed, how many frames pass before
    the window is closed, and whether drawing raises an error flag. Shader
    sources compile when they hold [void main]. *)
Record script := mk_script {
  glfw_ok : bool;
  window_ok : bool;
  glew_ok : bool;
  draw_ok : bool;
  frames_left : nat;
  next_name : Z;
  sources : list (GLuint * string)
}.

Definition script_log : string := "ERROR: 0:1: syntax error".

Definition script_source (d : script) (shader : GLuint) : string :=
  match find (fun p => fst p =? shader) (sources d) with
  | Some p => snd p
  | None => ""
  end.

Definition script_compiles (d : script) (shader : GLuint) : bool :=
  Str.found "void main" (script_source d shader).

Definition quiet {A} (a : A) (d : script) : reply script A := mk_reply a d [].

Definition fresh_name (d : script) : reply script GLuint :=
  mk_reply (next_name d)
           (mk_script (glfw_ok d) (window_ok d) (glew_ok d) (draw_ok d)
                      (frames_left d) (next_name d + 1) (sources d))
           [].

#[export] Instance scripted : Libraries script :=
  fun A call d =>
    match call in API T return reply script T with
    | glGetError => quiet 0 d
    | glGetString _ => quiet "3.3.0" d
    | glCreateShader _ => fresh_name d
    | glShaderSource shader _ src =>
        mk_reply tt
          (mk_script (glfw_ok d) (window_ok d) (glew_ok d) (draw_ok d)
                     (frames_left d) (next_name d)
                     ((shader, String.concat "" src) :: sources d))
          []
    | glCompileShader _ => quiet tt d
    | glGetShaderiv shader pname =>
        if pname =? GL_COMPILE_STATUS
        then quiet (if script_compiles d shader then 1 else 0) d
        else if pname =? GL_INFO_LOG_LENGTH
        then quiet (if script_compiles d shader then 0
                    else Z.of_nat (String.length script_log) + 1) d
        else mk_reply 0 d [1280%positive]
    | glGetShaderInfoLog shader bufSize =>
        if script_compiles d shader then quiet (0, "") d
        else let text := substring 0 (Z.to_nat (bufSize - 1)) script_log in
             quiet (Z.of_nat (String.length text), text) d
    | glDeleteShader _ => quiet tt d
    | glCreateProgram => fresh_name d
    | glAttachShader _ _ => quiet tt d
    | glLinkProgram _ => quiet tt d
    | glValidateProgram _ => quiet tt d
    | glGetProgramiv _ _ => quiet 1 d
    | glUseProgram _ => quiet tt d
    | glDeleteProgram _ => quiet tt d
    | glGetUniformLocation _ name =>
        quiet (if String.eqb name "u_Color" then 0 else -1) d
    | glUniform4f _ _ _ _ _ => quiet tt d
    | glGenBuffers _ => fresh_name d
    | glBindBuffer _ _ => quiet tt d
    | glBufferData _ _ _ _ => quiet tt d
    | glEnableVertexAttribArray _ => quiet tt d
    | glVertexAttribPointer _ _ _ _ _ _ => quiet tt d
    | glClear _ => quiet tt d
    | glDrawElements _ _ _ _ =>
        mk_reply tt d (if draw_ok d then [] else [1282%positive])
    | glfwInit => quiet (if glfw_ok d then 1 else 0) d
    | glfwCreateWindow _ _ _ _ _ => quiet (if window_ok d then 4096 else NULL) d
    | glfwTerminate => quiet tt d
    | glfwMakeContextCurrent _ => quiet tt d
    | glfwSwapInterval _ => quiet tt d
    | glfwGetTime => quiet (S754_zero false) d
    | glfwWindowShouldClose _ =>
        quiet (match frames_left d with O => 1 | S _ => 0 end) d
    | glfwSwapBuffers _ => quiet tt d
    | glfwPollEvents =>
        mk_reply tt
          (mk_script (glfw_ok d) (window_ok d) (glew_ok d) (draw_ok d)
                     (Nat.pred (frames_left d)) (next_name d) (sources d))
          []
    | glewInit => quiet (if glew_ok d then GLEW_OK else 1) d
    end.

(** The world at program start: nothing printed, no call made, no flag
    raised, and the shader file in place. *)
Definition boot (d : script) (shader_file : string) : world script :=
  mk_world d [] [] "" "" (single_file "res/shaders/basic.shader" shader_file).

Definition healthy (frames : nat) : script :=
  mk_script true true true true frames 1 [].

(** A world of the scripted libraries in which drawing raises a flag and
    two flags are raised already. *)
Definition faulty_world : world script :=
  mk_world (mk_script true true true false 1 1 [])
           [1280%positive; 1281%positive] [] "" ""
           (single_file "res/shaders/basic.shader" basic_shader).

(** Scripted libraries that keep no information log: the log length they
    report is 0, also for a shader that failed to compile. *)
Definition no_log : Libraries script :=
  fun A call d =>
    match call in API T return reply script T with
    | glGetShaderiv shader pname =>
        if pname =? GL_INFO_LOG_LENGTH then quiet 0 d
        else scripted _ (glGetShaderiv shader pname) d
    | glGetShaderInfoLog _ _ => quiet (0, "") d
    | call' => scripted _ call' d
    end.

(** Scripted libraries whose programs have no uniform at all. *)
Definition no_uniform : Libraries script :=
  fun A call d =>
    match call in API T return reply script T with
    | glGetUniformLocation _ _ => quiet (-1) d
    | call' => scripted _ call' d
    end.

(* ===================================================================== *)
(** ** Vocabulary of the claims about the wrappers *)
(* ===================================================================== *)

(** The two stages a shader is compiled for. *)
Inductive stage := Vertex | Fragment.

Definition stage_enum (s : stage) : GLenum :=
  match s with Vertex => GL_VERTEX_SHADER | Fragment => GL_FRAGMENT_SHADER end.

Definition stage_name (s : stage) : string :=
  match s with Vertex => "vertex" | Fragment => "fragment" end.

(** The query for the status of a program object, as a check of
    [GL_LINK_STATUS] after [glLinkProgram] would make. *)
Definition queries_program (c : logged) : bool :=
  match c with
  | Call (glGetProgramiv _ _) => true
  | _ => false
  end.


Ltac run_calls :=
  unfold log;
  cbn [api lib flags calls cout cerr files ret cerr_put cout_put fst snd].

(** A call answered by the libraries, that is any call but [glGetError]. *)
Definition library_call {A} (call : API A) : bool :=
  match call with
  | glGetError => false
  | _ => true
  end.

(** A reading of the error flag. *)
Definition reads_error_flag (c : logged) : bool :=
  match c with
  | Call glGetError => true
  | _ => false
  end.

(** The line [GLLogCall] prints for the error code [error]. *)
Definition error_line (error : positive) (function file : string) (line : Z)
  : string :=
  "[OpenGL Error] (" ++ decimal (Zpos error) ++ ") in file " ++ file
  ++ " on function " ++ function ++ " at line " ++ decimal line ++ Str.endl.

(** The world [w] with the raised flags replaced. *)
Definition with_flags {D} (w : world D) (fl : list positive) : world D :=
  mk_world (lib w) fl (calls w) (cout w) (cerr w) (files w).

(** One colour channel over one frame, as [frame] moves it: the increment
    turns to [-step] once the value is above 1 and to [step] once it is
    below 0, then the value moves by the increment. *)
Definition channel_step (step : float) (channel : float * float) : float * float :=
  let (value, increment) := channel in
  let increment :=
    if f32_lt (f32_lit 1 1) value then f32_neg step
    else if f32_lt value f32_zero then step
    else increment in
  (f32_add value increment, increment).

(** The first [n] states of a channel. *)
Fixpoint channel_run (n : nat) (step : float) (channel : float * float)
  : list (float * float) :=
  match n with
  | O => []
  | S n' => channel :: channel_run n' step (channel_step step channel)
  end.

(** Equality of floating-point data, field by field. *)
Definition float_eqb (a b : float) : bool :=
  match a, b with
  | S754_zero s, S754_zero s' => Bool.eqb s s'
  | S754_infinity s, S754_infinity s' => Bool.eqb s s'
  | S754_nan, S754_nan => true
  | S754_finite s m e, S754_finite s' m' e' =>
      Bool.eqb s s' && Pos.eqb m m' && Z.eqb e e'
  | _, _ => false
  end.

Definition channel_eqb (a b : float * float) : bool :=
  float_eqb (fst a) (fst b) && float_eqb (snd a) (snd b).

Definition among (states : list (float * float)) (channel : float * float) : bool :=
  existsb (channel_eqb channel) states.

(** The states each channel goes through from the values [main] starts
    with; after these the channel is back at a state it has been in. *)
Definition red_states : list (float * float) :=
  channel_run 60 (f32_lit 5 100) (f32_zero, f32_lit 5 100).
Definition green_states : list (float * float) :=
  channel_run 305 (f32_lit 1 100) (f32_zero, f32_lit 1 100).
Definition blue_states : list (float * float) :=
  channel_run 80 (f32_lit 3 100) (f32_lit 1 1, f32_lit 3 10).

Definition colours_on_course (st : frame_state) : bool :=
  among red_states (r st, r_increment st)
  && among green_states (g st, g_increment st)
  && among blue_states (b st, b_increment st).

(** [lo <= x <= hi] on [float]. *)
Definition f32_between (lo hi x : float) : bool := SFleb lo x && SFleb x hi.

Local Close Scope Z_scope.

(* ===================================================================== *)
(** ** Facts about [std::string::find] *)
(* ===================================================================== *)

Module StrFacts.
Import Str.

Lemma prefix_app p s : prefix p s = true <-> exists b, s = p ++ b.
Proof.
  revert s. induction p as [|c p IH]; intros s.
  - split; [intros _; exists s; reflexivity | intros _; destruct s; reflexivity].
  - destruct s as [|d s]; simpl.
    + split; [discriminate | intros [b [=]]].
    + destruct (ascii_dec c d) as [->|Hne].
      * rewrite IH. split; intros [b Hb]; exists b; [now rewrite Hb | now injection Hb].
      * split; [discriminate | intros [b [= E _]]; congruence].
Qed.

Lemma index0_cons pat c s :
  index 0 pat (String c s) =
  if prefix pat (String c s) then Some 0
  else match index 0 pat s with Some n => Some (S n) | None => None end.
Proof. reflexivity. Qed.

Lemma found_occurs pat s : found pat s = true <-> occurs pat s.
Proof.
  unfold found, find, occurs. induction s as [|c s IH].
  - destruct pat as [|d pat]; simpl.
    + split; [intros _; exists "", ""; reflexivity | reflexivity].
    + split; [discriminate|]. intros (a & b & H). destruct a; discriminate.
  - rewrite index0_cons. destruct (prefix pat (String c s)) eqn:Hp.
    + split; [intros _ | reflexivity].
      apply prefix_app in Hp as [b Hb]. exists "", b. exact Hb.
    + split.
      * destruct (index 0 pat s); [intros _ | discriminate].
        destruct IH as [IH _]. destruct (IH eq_refl) as (a & b & ->).
        exists (String c a), b. reflexivity.
      * intros (a & b & H). destruct a as [|d a].
        -- simpl in H. assert (prefix pat (String c s) = true) as Hp'
             by (apply prefix_app; exists b; exact H).
           congruence.
        -- injection H as -> ->.
           destruct IH as [_ IH].
           destruct (index 0 pat (a ++ pat ++ b)); [reflexivity|].
           discriminate IH. exists a, b. reflexivity.
Qed.

Lemma not_found_occurs pat s : found pat s = false <-> ~ occurs pat s.
Proof.
  rewrite <- found_occurs. destruct (found pat s); split; congruence.
Qed.

Lemma app_assoc (a b c : string) : (a ++ b) ++ c = a ++ b ++ c.
Proof. induction a; simpl; congruence. Qed.

Lemma app_nil_r (a : string) : a ++ "" = a.
Proof. induction a; simpl; congruence. Qed.

Lemma occurs_trans p q s : occurs p q -> occurs q s -> occurs p s.
Proof.
  intros (a & b & ->) (c & d & ->).
  exists (c ++ a), (b ++ d). now rewrite !app_assoc.
Qed.

Lemma occurs_app_l p a b : occurs p a -> occurs p (a ++ b).
Proof.
  intros (x & y & ->). exists x, (y ++ b). now rewrite !app_assoc.
Qed.

Lemma occurs_app_r p a b : occurs p b -> occurs p (a ++ b).
Proof.
  intros (x & y & ->). exists (a ++ x), y. now rewrite !app_assoc.
Qed.

(** A pattern free of [c] that starts inside [a ++ String c b] at the
    first position of [a] lies within [a]. *)
Lemma prefix_before_sep c pat y a b :
  mem c pat = false -> pat ++ y = a ++ String c b -> exists a', a = pat ++ a'.
Proof.
  revert a. induction pat as [|d pat IH]; intros a Hm H.
  - exists a. reflexivity.
  - simpl in Hm. apply orb_false_elim in Hm as [Hcd Hm].
    destruct a as [|e a]; simpl in H.
    + injection H as -> _. now rewrite Ascii.eqb_refl in Hcd.
    + injection H as -> H. destruct (IH a Hm H) as [a' ->].
      exists a'. reflexivity.
Qed.

(** A pattern free of the separator cannot straddle it. *)
Lemma occurs_sep c pat a b :
  mem c pat = false -> occurs pat (a ++ String c b) ->
  occurs pat a \/ occurs pat b.
Proof.
  intros Hm (x & y & H). revert x H.
  induction a as [|e a IH]; intros x H.
  - destruct x as [|f x]; simpl in H.
    + destruct pat as [|d pat]; [left; exists "", ""; reflexivity|].
      simpl in Hm. apply orb_false_elim in Hm as [Hcd _].
      injection H as -> _. now rewrite Ascii.eqb_refl in Hcd.
    + injection H as _ ->. right. exists x, y. reflexivity.
  - destruct x as [|f x].
    + change ("" ++ pat ++ y) with (pat ++ y) in H. symmetry in H.
      destruct (prefix_before_sep _ _ _ _ _ Hm H) as [a' ->].
      left. exists "", a'. reflexivity.
    + simpl in H. injection H as _ H.
      destruct (IH x H) as [(u & v & ->)|Hb]; [left | right; exact Hb].
      exists (String e u), v. reflexivity.
Qed.

End StrFacts.

(* ===================================================================== *)
(** ** The loops of [ParseShader], unfolded *)
(* ===================================================================== *)

(** The two loops, unfolded once. *)
Lemma stream_lines_step stream :
  stream_lines stream =
  let (line, stream') := getline stream in
  if good stream' then line :: stream_lines stream' else [].
Proof.
  funelim (stream_lines stream).
  - rewrite Hget, Hgood. reflexivity.
  - rewrite Hget. cbn.
    match goal with H : good _ = false |- _ => rewrite H end. reflexivity.
Qed.

Lemma ParseShader_loop_step stream type ss :
  ParseShader_loop stream type ss =
  let (line, stream') := getline stream in
  if good stream'
  then bind (ParseShader_body line type ss)
            (fun '(type', ss') => ParseShader_loop stream' type' ss')
  else Returns (type, ss).
Proof.
  funelim (ParseShader_loop stream type ss);
    rewrite Hget; cbn;
    repeat match goal with
      | H : good _ = _ |- _ => rewrite H
      | H : ParseShader_body _ _ _ = _ |- _ => rewrite H
      end; reflexivity.
Qed.

Lemma ParseShader_loop_lines stream type ss :
  ParseShader_loop stream type ss = ParseShader_lines (stream_lines stream) type ss.
Proof.
  remember (remaining stream) as n eqn:Hn.
  revert stream type ss Hn.
  induction n as [n IH] using lt_wf_ind. intros stream type ss ->.
  rewrite ParseShader_loop_step, (stream_lines_step stream).
  destruct (getline stream) as [line stream'] eqn:Hget.
  destruct (good stream') eqn:Hgood; [|reflexivity].
  simpl. destruct (ParseShader_body line type ss) as [[type' ss']|i]; [|reflexivity].
  simpl. eapply IH; [|reflexivity].
  eapply getline_remaining; eauto.
Qed.

(** A line without a newline, closed by one, is what [read_line] reads. *)
Lemma read_line_closed l rest :
  Str.mem Str.newline l = false ->
  read_line (l ++ Str.endl ++ rest) = (l, Some rest).
Proof.
  induction l as [|c l IH]; intros H.
  - reflexivity.
  - cbn [Str.mem] in H. apply orb_false_elim in H as [Hc Hl].
    cbn [String.append read_line].
    rewrite Ascii.eqb_sym, Hc, (IH Hl). reflexivity.
Qed.

(** A file written with [unlines] reads back as the lines written. *)
Lemma stream_lines_unlines lines :
  Forall (fun l => Str.mem Str.newline l = false) lines ->
  stream_lines (mk_ifstream (unlines lines) false false) = lines.
Proof.
  induction 1 as [|l lines Hl _ IH]; rewrite stream_lines_step.
  - reflexivity.
  - unfold getline. cbn [failbit eofbit rdbuf orb unlines].
    rewrite (read_line_closed _ _ Hl). cbn [good failbit negb].
    now rewrite IH.
Qed.

(* ===================================================================== *)
(** ** [ParseShader]: the loop body and the loop *)
(* ===================================================================== *)

Section Splitter.
Import Str StrFacts.

Lemma body_directive line type ss :
  found "#shader" line = true ->
  ParseShader_body line type ss = Returns (section_after line type, ss).
Proof.
  intros H. unfold ParseShader_body, section_after. rewrite H.
  destruct (found "vertex" line); [reflexivity|].
  destruct (found "fragment" line); reflexivity.
Qed.

Lemma body_content line type v f :
  found "#shader" line = false -> type <> NONE ->
  ParseShader_body line type [v; f] = Returns (type, appended type [v; f] line).
Proof.
  intros H Ht. unfold ParseShader_body. rewrite H.
  destruct type; [contradiction | reflexivity | reflexivity].
Qed.

Lemma body_content_none line ss :
  found "#shader" line = false ->
  ParseShader_body line NONE ss = OutOfBounds (-1).
Proof.
  intros H. unfold ParseShader_body. rewrite H. reflexivity.
Qed.

Lemma ParseShader_lines_app a b type ss :
  ParseShader_lines (a ++ b)%list type ss =
  bind (ParseShader_lines a type ss)
       (fun '(type', ss') => ParseShader_lines b type' ss').
Proof.
  revert type ss. induction a as [|l a IH]; intros type ss; simpl.
  - reflexivity.
  - destruct (ParseShader_body l type ss) as [[t s]|i]; simpl; [apply IH | reflexivity].
Qed.

Lemma unlines_app a b : unlines (a ++ b)%list = unlines a ++ unlines b.
Proof.
  induction a as [|l a IH]; simpl; [reflexivity|].
  rewrite IH, !app_assoc. reflexivity.
Qed.

Lemma classify_content line : classify line = Content <-> is_content line.
Proof.
  unfold classify, is_content. destruct (found "#shader" line).
  - destruct (found "vertex" line); [|destruct (found "fragment" line)];
      split; discriminate.
  - split; reflexivity.
Qed.

(** The loop body on each kind of line that holds [#shader]. *)
Lemma body_vertex_marker l type ss :
  classify l = VertexMarker -> ParseShader_body l type ss = Returns (VERTEX, ss).
Proof.
  unfold classify. intros Hk.
  destruct (found "#shader" l) eqn:Hs; [|discriminate].
  rewrite body_directive by assumption. unfold section_after.
  destruct (found "vertex" l); [reflexivity|].
  destruct (found "fragment" l); discriminate.
Qed.

Lemma body_fragment_marker l type ss :
  classify l = FragmentMarker -> ParseShader_body l type ss = Returns (FRAGMENT, ss).
Proof.
  unfold classify. intros Hk.
  destruct (found "#shader" l) eqn:Hs; [|discriminate].
  rewrite body_directive by assumption. unfold section_after.
  destruct (found "vertex" l); [discriminate|].
  destruct (found "fragment" l); [reflexivity | discriminate].
Qed.

Lemma body_plain_directive l type ss :
  classify l = Directive -> ParseShader_body l type ss = Returns (type, ss).
Proof.
  unfold classify. intros Hk.
  destruct (found "#shader" l) eqn:Hs; [|discriminate].
  rewrite body_directive by assumption. unfold section_after.
  destruct (found "vertex" l); [discriminate|].
  destruct (found "fragment" l); [discriminate | reflexivity].
Qed.

(** Content lines read in the vertex section all go to [ss[0]]. *)
Lemma content_run_vertex cs v f :
  Forall is_content cs ->
  ParseShader_lines cs VERTEX [v; f] = Returns (VERTEX, [v ++ unlines cs; f]).
Proof.
  intros H. revert v. induction H as [|l cs Hl _ IH]; intros v; simpl.
  - now rewrite app_nil_r.
  - rewrite body_content by (assumption || discriminate). simpl.
    rewrite IH, !app_assoc. reflexivity.
Qed.

(** Content lines read in the fragment section all go to [ss[1]]. *)
Lemma content_run_fragment cs v f :
  Forall is_content cs ->
  ParseShader_lines cs FRAGMENT [v; f] = Returns (FRAGMENT, [v; f ++ unlines cs]).
Proof.
  intros H. revert f. induction H as [|l cs Hl _ IH]; intros f; simpl.
  - now rewrite app_nil_r.
  - rewrite body_content by (assumption || discriminate). simpl.
    rewrite IH, !app_assoc. reflexivity.
Qed.

Lemma ParseShader_as_lines fs filepath :
  ParseShader fs filepath =
  bind (ParseShader_lines (stream_lines (ifstream_open fs filepath)) NONE ss_init)
       (fun '(_, ss) => Returns (mk_ShaderProgramSource (ss_str ss 0) (ss_str ss 1))).
Proof.
  unfold ParseShader. rewrite ParseShader_loop_lines. reflexivity.
Qed.

End Splitter.

(* ===================================================================== *)
(** ** Claims about [ParseShader] *)
(* ===================================================================== *)

Section SplitterClaims.
Import Str StrFacts.

Lemma missing_file_no_lines fs filepath :
  fs filepath = None -> stream_lines (ifstream_open fs filepath) = [].
Proof.
  intros H. unfold ifstream_open. rewrite H.
  rewrite stream_lines_step. reflexivity.
Qed.

(** C8. [ParseShader] raises nothing for a missing file: when the path
    names no file, the stream yields no line and the function returns a
    [ShaderProgramSource] whose [VertexSource] and [FragmentSource] are
    both the empty string. *)
Theorem ParseShader_missing_file fs filepath :
  fs filepath = None ->
  stream_lines (ifstream_open fs filepath) = [] /\
  ParseShader fs filepath = Returns (mk_ShaderProgramSource "" "").
Proof.
  intros H. split; [now apply missing_file_no_lines|].
  rewrite ParseShader_as_lines, missing_file_no_lines by assumption.
  reflexivity.
Qed.

Lemma ParseShader_missing_file_witness :
  single_file "res/shaders/basic.shader" basic_shader "res/shaders/other.shader" = None /\
  ParseShader (single_file "res/shaders/basic.shader" basic_shader)
              "res/shaders/other.shader"
  = Returns (mk_ShaderProgramSource "" "").
Proof.
  split; [reflexivity|].
  apply (ParseShader_missing_file
           (single_file "res/shaders/basic.shader" basic_shader)
           "res/shaders/other.shader").
  reflexivity.
Defined.

(** A file whose first line is a content line makes the loop body
    subscript [ss] with [(int)ShaderType::NONE], that is [ss[-1]]. *)
Lemma ParseShader_content_first fs filepath line rest :
  stream_lines (ifstream_open fs filepath) = line :: rest ->
  found "#shader" line = false ->
  ParseShader fs filepath = OutOfBounds (-1).
Proof.
  intros Hl Hc. rewrite ParseShader_as_lines, Hl. simpl.
  rewrite body_content_none by assumption. reflexivity.
Qed.

(** C1. On a file with no marker line and one content line, the line read
    while the section is still [NONE] is written through [ss[-1]]: the
    subscript is outside the two streams of [ss], and the run never reaches
    the [return] that would give two empty strings. *)
Theorem ParseShader_no_marker_out_of_bounds :
  let fs := single_file "res/shaders/basic.shader" ("void main() {}" ++ endl) in
  stream_lines (ifstream_open fs "res/shaders/basic.shader") = ["void main() {}"] /\
  count_kind VertexMarker ["void main() {}"] = 0 /\
  count_kind FragmentMarker ["void main() {}"] = 0 /\
  ShaderType_to_int NONE = (-1)%Z /\
  ss_put ss_init (ShaderType_to_int NONE) "void main() {}" = OutOfBounds (-1) /\
  ParseShader fs "res/shaders/basic.shader" = OutOfBounds (-1).
Proof.
  repeat split; reflexivity.
Qed.

(** C10. A line that holds the directive token [#shader] but neither stage
    keyword leaves the section state as it is and reaches neither buffer:
    the loop body returns the state unchanged, and a file parses to the same
    result with or without that line. *)
Theorem directive_without_stage_dropped line :
  found "#shader" line = true ->
  found "vertex" line = false ->
  found "fragment" line = false ->
  (forall type ss, ParseShader_body line type ss = Returns (type, ss)) /\
  (forall fs filepath fs' filepath' before after,
      stream_lines (ifstream_open fs filepath) = (before ++ line :: after)%list ->
      stream_lines (ifstream_open fs' filepath') = (before ++ after)%list ->
      ParseShader fs filepath = ParseShader fs' filepath').
Proof.
  intros Hs Hv Hf.
  assert (Hbody : forall type ss, ParseShader_body line type ss = Returns (type, ss)).
  { intros type ss. rewrite body_directive by assumption.
    unfold section_after. now rewrite Hv, Hf. }
  split; [exact Hbody|].
  intros fs filepath fs' filepath' before after H H'.
  rewrite !ParseShader_as_lines, H, H'. f_equal.
  rewrite !ParseShader_lines_app.
  destruct (ParseShader_lines before NONE ss_init) as [[type ss]|i]; simpl;
    [rewrite Hbody|]; reflexivity.
Qed.

Lemma directive_without_stage_dropped_witness :
  ParseShader_body "#shader geometry" FRAGMENT ["v"; "f"]
  = Returns (FRAGMENT, ["v"; "f"]).
Proof.
  apply (directive_without_stage_dropped "#shader geometry"); reflexivity.
Defined.

(** C4, as stated, fails: in the line [// #shader fragment] the token is
    not at the start of the line, yet the body switches the section from
    [VERTEX] to [FRAGMENT] and appends the line to no buffer, where the
    claim has the section kept and the line appended to the vertex
    buffer. *)
Lemma marker_inside_line_switches :
  let line := "// #shader fragment" in
  let ss := ["void main() {}" ++ endl; ""] in
  prefix "#shader" line = false /\
  find "#shader" line = Some 3 /\
  ParseShader_body line VERTEX ss = Returns (FRAGMENT, ss) /\
  ParseShader_body line VERTEX ss <> Returns (VERTEX, appended VERTEX ss line).
Proof.
  cbv zeta. repeat split; try reflexivity. discriminate.
Qed.

(** C4, amended. A line is a directive if and only if the token [#shader]
    occurs anywhere in it. A directive line is appended to no buffer and
    sets the section to [VERTEX] when it holds [vertex], else to [FRAGMENT]
    when it holds [fragment], else leaves it. A line without the token is
    appended, with a newline, to the buffer of the active section. *)
Theorem marker_anywhere_switches line type v f :
  (occurs "#shader" line ->
   ParseShader_body line type [v; f] = Returns (section_after line type, [v; f])) /\
  (~ occurs "#shader" line -> type <> NONE ->
   ParseShader_body line type [v; f] = Returns (type, appended type [v; f] line)).
Proof.
  split.
  - intros H. apply body_directive. now apply found_occurs.
  - intros H Ht. apply body_content; [|assumption]. now apply not_found_occurs.
Qed.

Lemma marker_anywhere_switches_witness :
  ParseShader_body "   #shader vertex" FRAGMENT ["v"; "f"]
  = Returns (VERTEX, ["v"; "f"]) /\
  ParseShader_body "void main() {}" FRAGMENT ["v"; "f"]
  = Returns (FRAGMENT, ["v"; "f" ++ "void main() {}" ++ endl]).
Proof.
  split.
  - apply (proj1 (marker_anywhere_switches "   #shader vertex" FRAGMENT "v" "f")).
    exists "   ", " vertex". reflexivity.
  - apply (proj2 (marker_anywhere_switches "void main() {}" FRAGMENT "v" "f")).
    + apply not_found_occurs. reflexivity.
    + discriminate.
Defined.

(** One section of a file: a section marker and the content lines after
    it, ending in the state the marker chose with the content in that
    state's buffer, whatever the state before. *)
Lemma section_vertex m cs type v f :
  classify m = VertexMarker -> Forall is_content cs ->
  ParseShader_lines (m :: cs) type [v; f] = Returns (VERTEX, [v ++ unlines cs; f]).
Proof.
  intros Hm Hcs. cbn [ParseShader_lines].
  rewrite body_vertex_marker by assumption. cbn [bind].
  now apply content_run_vertex.
Qed.

Lemma section_fragment m cs type v f :
  classify m = FragmentMarker -> Forall is_content cs ->
  ParseShader_lines (m :: cs) type [v; f] = Returns (FRAGMENT, [v; f ++ unlines cs]).
Proof.
  intros Hm Hcs. cbn [ParseShader_lines].
  rewrite body_fragment_marker by assumption. cbn [bind].
  now apply content_run_fragment.
Qed.

(** C7. Section assignment follows the stage keyword of each marker, not
    the order of the markers: in a file whose fragment marker comes first,
    the lines after the fragment marker, up to the vertex marker, make
    [FragmentSource], and the lines after the vertex marker make
    [VertexSource]; the file with the two sections swapped parses to the
    same result. *)
Theorem fragment_marker_first fs filepath mf cf mv cv :
  classify mf = FragmentMarker ->
  classify mv = VertexMarker ->
  Forall is_content cf ->
  Forall is_content cv ->
  stream_lines (ifstream_open fs filepath) = (mf :: cf ++ mv :: cv)%list ->
  ParseShader fs filepath
  = Returns (mk_ShaderProgramSource (unlines cv) (unlines cf)) /\
  (forall fs' filepath',
      stream_lines (ifstream_open fs' filepath') = (mv :: cv ++ mf :: cf)%list ->
      ParseShader fs' filepath' = ParseShader fs filepath).
Proof.
  intros Hmf Hmv Hcf Hcv Hl.
  assert (ParseShader fs filepath
          = Returns (mk_ShaderProgramSource (unlines cv) (unlines cf))) as E.
  { rewrite ParseShader_as_lines, Hl.
    change (mf :: cf ++ mv :: cv)%list with ((mf :: cf) ++ (mv :: cv))%list.
    rewrite ParseShader_lines_app. unfold ss_init.
    rewrite section_fragment by assumption. cbn [bind].
    rewrite section_vertex by assumption. reflexivity. }
  split; [exact E|].
  intros fs' filepath' Hl'. rewrite E, ParseShader_as_lines, Hl'.
  change (mv :: cv ++ mf :: cf)%list with ((mv :: cv) ++ (mf :: cf))%list.
  rewrite ParseShader_lines_app. unfold ss_init.
  rewrite section_vertex by assumption. cbn [bind].
  rewrite section_fragment by assumption. reflexivity.
Qed.

Lemma fragment_marker_first_witness :
  ParseShader
    (single_file "res/shaders/basic.shader"
       (unlines ["#shader fragment"; "color = u_Color;";
                 "#shader vertex"; "gl_Position = position;"]))
    "res/shaders/basic.shader"
  = Returns (mk_ShaderProgramSource
               ("gl_Position = position;" ++ endl)
               ("color = u_Color;" ++ endl)).
Proof.
  refine (proj1 (fragment_marker_first
                   (single_file "res/shaders/basic.shader"
                      (unlines ["#shader fragment"; "color = u_Color;";
                                "#shader vertex"; "gl_Position = position;"]))
                   "res/shaders/basic.shader"
                   "#shader fragment" ["color = u_Color;"]
                   "#shader vertex" ["gl_Position = position;"]
                   _ _ _ _ _));
    try reflexivity; repeat constructor.
Defined.

Lemma count_kind_cons k l rest :
  count_kind k (l :: rest) =
  (if line_kind_eqb (classify l) k then 1 else 0) + count_kind k rest.
Proof.
  unfold count_kind. simpl. destruct (line_kind_eqb (classify l) k); reflexivity.
Qed.

Lemma append_nonempty a b : b <> "" -> a ++ b <> "".
Proof. destruct a; [trivial | discriminate]. Qed.

(** In a well-formed file every section that a marker opens receives a
    content line, so a buffer whose marker occurs ends non-empty. *)
Lemma well_formed_sections_filled lines :
  forall pos type v f,
    well_formed_from pos lines = true ->
    (type = NONE -> pos = BeforeSections) ->
    (v <> "" \/ (type = VERTEX /\ pos = SectionOpened)
     \/ 0 < count_kind VertexMarker lines) ->
    (f <> "" \/ (type = FRAGMENT /\ pos = SectionOpened)
     \/ 0 < count_kind FragmentMarker lines) ->
    exists type' v' f',
      ParseShader_lines lines type [v; f] = Returns (type', [v'; f']) /\
      v' <> "" /\ f' <> "".
Proof.
  induction lines as [|l rest IH]; intros pos type v f Hwf Hpos Hv Hf.
  - simpl in Hwf. exists type, v, f. split; [reflexivity|].
    unfold count_kind in Hv, Hf; simpl in Hv, Hf.
    split; [destruct Hv as [?|[[_ ->]|?]] | destruct Hf as [?|[[_ ->]|?]]];
      (assumption || discriminate || lia).
  - simpl in Hwf. rewrite !count_kind_cons in *. cbn [ParseShader_lines].
    destruct (classify l) eqn:Hk; simpl in Hv, Hf.
    + (* vertex marker *)
      rewrite body_vertex_marker by assumption.
      cbn [bind].
      assert (pos <> SectionOpened) by (intros ->; discriminate).
      apply (IH SectionOpened); try discriminate.
      * destruct pos; (assumption || discriminate).
      * right; left. split; reflexivity.
      * destruct Hf as [?|[[_ ?]|?]]; [left; assumption | contradiction | right; right; lia].
    + (* fragment marker *)
      rewrite body_fragment_marker by assumption.
      cbn [bind].
      assert (pos <> SectionOpened) by (intros ->; discriminate).
      apply (IH SectionOpened); try discriminate.
      * destruct pos; (assumption || discriminate).
      * destruct Hv as [?|[[_ ?]|?]]; [left; assumption | contradiction | right; right; lia].
      * right; left. split; reflexivity.
    + (* directive without a stage keyword *)
      rewrite body_plain_directive by assumption.
      cbn [bind]. apply (IH pos); assumption.
    + (* content *)
      assert (pos <> BeforeSections) by (intros ->; discriminate).
      assert (type <> NONE) as Ht by (intros E; apply Hpos in E; contradiction).
      assert (is_content l) as Hc by (apply classify_content; assumption).
      rewrite body_content by assumption.
      cbn [bind].
      assert (l ++ endl <> "") as Hne by (apply append_nonempty; discriminate).
      destruct type; [contradiction | |]; cbn [appended].
      * apply (IH SectionFilled); try discriminate.
        -- destruct pos; (assumption || contradiction).
        -- left. apply append_nonempty, Hne.
        -- destruct Hf as [?|[[? _]|?]]; [left; assumption | discriminate | right; right; assumption].
      * apply (IH SectionFilled); try discriminate.
        -- destruct pos; (assumption || contradiction).
        -- destruct Hv as [?|[[? _]|?]]; [left; assumption | discriminate | right; right; assumption].
        -- left. apply append_nonempty, Hne.
Qed.

(** What the loop keeps in each buffer: whole content lines, each closed
    by a newline. *)
Lemma buffers_hold_content lines :
  forall type lv lf type' ss',
    Forall is_content lv -> Forall is_content lf ->
    ParseShader_lines lines type [unlines lv; unlines lf] = Returns (type', ss') ->
    exists lv' lf',
      ss' = [unlines lv'; unlines lf'] /\
      Forall is_content lv' /\ Forall is_content lf'.
Proof.
  induction lines as [|l rest IH]; intros type lv lf type' ss' Hv Hf H.
  - injection H as _ <-. exists lv, lf. auto.
  - cbn [ParseShader_lines] in H.
    destruct (found "#shader" l) eqn:Hs.
    + rewrite body_directive in H by assumption. cbn [bind] in H.
      eapply (IH _ lv lf); eassumption.
    + destruct type.
      * rewrite body_content_none in H by assumption. discriminate.
      * rewrite body_content in H by (assumption || discriminate).
        cbn [bind appended] in H.
        replace (unlines lv ++ l ++ endl) with (unlines (lv ++ [l])%list) in H
          by (rewrite unlines_app; reflexivity).
        eapply (IH _ (lv ++ [l])%list lf); [|assumption|eassumption].
        apply Forall_app. split; [assumption | repeat constructor; assumption].
      * rewrite body_content in H by (assumption || discriminate).
        cbn [bind appended] in H.
        replace (unlines lf ++ l ++ endl) with (unlines (lf ++ [l])%list) in H
          by (rewrite unlines_app; reflexivity).
        eapply (IH _ lv (lf ++ [l])%list); [assumption| |eassumption].
        apply Forall_app. split; [assumption | repeat constructor; assumption].
Qed.

(** The token [#shader] holds no newline, so it occurs in a text made of
    newline-closed lines only if it occurs in one of the lines. *)
Lemma content_lines_hold_no_directive ls :
  Forall is_content ls -> ~ occurs "#shader" (unlines ls).
Proof.
  induction 1 as [|l ls Hl _ IH]; simpl.
  - apply not_found_occurs. reflexivity.
  - intros Hocc. unfold endl in Hocc. simpl in Hocc.
    apply occurs_sep in Hocc; [|reflexivity].
    destruct Hocc as [Hocc|Hocc]; [|contradiction].
    apply not_found_occurs in Hl. contradiction.
Qed.

(** C5. For every well-formed file with exactly one vertex marker line and
    one fragment marker line, [ParseShader] returns two non-empty strings,
    and no marker line (indeed no line holding [#shader]) occurs anywhere
    in the concatenation of the two. Well-formed: no content line before
    the first section marker, and at least one content line after each
    section marker. *)
Theorem well_formed_file_two_sources fs filepath :
  well_formed (stream_lines (ifstream_open fs filepath)) = true ->
  count_kind VertexMarker (stream_lines (ifstream_open fs filepath)) = 1 ->
  count_kind FragmentMarker (stream_lines (ifstream_open fs filepath)) = 1 ->
  exists v f,
    ParseShader fs filepath = Returns (mk_ShaderProgramSource v f) /\
    v <> "" /\ f <> "" /\
    forall line,
      In line (stream_lines (ifstream_open fs filepath)) ->
      classify line <> Content ->
      ~ occurs line (v ++ f).
Proof.
  intros Hwf Hv Hf. rewrite ParseShader_as_lines.
  set (lines := stream_lines (ifstream_open fs filepath)) in *.
  destruct (well_formed_sections_filled lines BeforeSections NONE "" "" Hwf)
    as (type' & v & f & Hrun & Hvne & Hfne);
    [reflexivity | right; right; lia | right; right; lia |].
  exists v, f. unfold ss_init. rewrite Hrun. cbn [bind ss_str nth].
  repeat split; try assumption.
  intros line _ Hk Hocc.
  destruct (buffers_hold_content lines NONE [] [] type' [v; f]
              (Forall_nil _) (Forall_nil _) Hrun)
    as (lv & lf & [= -> ->] & Hlv & Hlf).
  rewrite <- unlines_app in Hocc.
  apply (content_lines_hold_no_directive (lv ++ lf)%list).
  - apply Forall_app. split; assumption.
  - apply occurs_trans with line; [|assumption].
    apply found_occurs. unfold classify in Hk.
    destruct (found "#shader" line); [reflexivity | contradiction].
Qed.

Lemma well_formed_file_two_sources_witness :
  exists v f,
    ParseShader (single_file "res/shaders/basic.shader" basic_shader)
                "res/shaders/basic.shader"
    = Returns (mk_ShaderProgramSource v f) /\
    v <> "" /\ f <> "" /\
    forall line,
      In line (stream_lines
                 (ifstream_open (single_file "res/shaders/basic.shader" basic_shader)
                                "res/shaders/basic.shader")) ->
      classify line <> Content ->
      ~ occurs line (v ++ f).
Proof.
  apply (well_formed_file_two_sources
           (single_file "res/shaders/basic.shader" basic_shader)
           "res/shaders/basic.shader");
    vm_compute; reflexivity.
Defined.

(** A buffer whose section is not the active one, and whose marker does not
    come again, stays as it is to the end of the file. *)
Lemma vertex_buffer_kept lines :
  forall type v f type' v' f',
    count_kind VertexMarker lines = 0 -> type <> VERTEX ->
    ParseShader_lines lines type [v; f] = Returns (type', [v'; f']) ->
    v' = v.
Proof.
  induction lines as [|l rest IH]; intros type v f type' v' f' Hc Ht H.
  - injection H as _ <- _. reflexivity.
  - rewrite count_kind_cons in Hc. cbn [ParseShader_lines] in H.
    unfold classify in Hc. destruct (found "#shader" l) eqn:Hs.
    + rewrite body_directive in H by assumption. cbn [bind] in H.
      unfold section_after in H.
      destruct (found "vertex" l); [simpl in Hc; discriminate|].
      destruct (found "fragment" l); simpl in Hc;
        (eapply IH; [exact Hc| |exact H]); (discriminate || assumption).
    + destruct type; [|contradiction|].
      * rewrite body_content_none in H by assumption. discriminate.
      * rewrite body_content in H by (assumption || discriminate).
        cbn [bind appended] in H. simpl in Hc.
        eapply IH; [exact Hc| |exact H]. discriminate.
Qed.

Lemma fragment_buffer_kept lines :
  forall type v f type' v' f',
    count_kind FragmentMarker lines = 0 -> type <> FRAGMENT ->
    ParseShader_lines lines type [v; f] = Returns (type', [v'; f']) ->
    f' = f.
Proof.
  induction lines as [|l rest IH]; intros type v f type' v' f' Hc Ht H.
  - injection H as _ _ <-. reflexivity.
  - rewrite count_kind_cons in Hc. cbn [ParseShader_lines] in H.
    unfold classify in Hc. destruct (found "#shader" l) eqn:Hs.
    + rewrite body_directive in H by assumption. cbn [bind] in H.
      unfold section_after in H.
      destruct (found "vertex" l).
      * simpl in Hc. eapply IH; [exact Hc| |exact H]. discriminate.
      * destruct (found "fragment" l); [simpl in Hc; discriminate|].
        simpl in Hc. eapply IH; [exact Hc| |exact H]. assumption.
    + destruct type; [| |contradiction].
      * rewrite body_content_none in H by assumption. discriminate.
      * rewrite body_content in H by (assumption || discriminate).
        cbn [bind appended] in H. simpl in Hc.
        eapply IH; [exact Hc| |exact H]. discriminate.
Qed.

(** The reading of well-formed above is the weakest one: with at most one
    marker line of each stage, a file on which [ParseShader] returns two
    non-empty strings is well-formed. *)
Lemma two_sources_well_formed_from lines :
  forall pos type v f,
    count_kind VertexMarker lines <= 1 ->
    count_kind FragmentMarker lines <= 1 ->
    (type = NONE <-> pos = BeforeSections) ->
    (count_kind VertexMarker lines = 1 -> v = "" /\ type <> VERTEX) ->
    (count_kind FragmentMarker lines = 1 -> f = "" /\ type <> FRAGMENT) ->
    (pos = SectionOpened ->
     (type = VERTEX /\ v = "") \/ (type = FRAGMENT /\ f = "")) ->
    (exists type' v' f',
        ParseShader_lines lines type [v; f] = Returns (type', [v'; f']) /\
        v' <> "" /\ f' <> "") ->
    well_formed_from pos lines = true.
Proof.
  induction lines as [|l rest IH];
    intros pos type v f Hcv Hcf Hpos Hv Hf Hopen (type' & v' & f' & Hrun & Hv' & Hf').
  - simpl in Hrun. injection Hrun as _ E1 E2. subst v' f'. simpl.
    destruct pos; try reflexivity.
    destruct (Hopen eq_refl) as [[_ ?]|[_ ?]]; contradiction.
  - rewrite !count_kind_cons in *. cbn [ParseShader_lines] in Hrun.
    cbn [well_formed_from].
    destruct (classify l) eqn:Hk; cbn [line_kind_eqb] in *.
    + (* vertex marker *)
      rewrite body_vertex_marker in Hrun by assumption. cbn [bind] in Hrun.
      assert (count_kind VertexMarker rest = 0) as Hv0 by lia.
      destruct (Hv ltac:(lia)) as [-> Hnv].
      destruct pos.
      * apply (IH SectionOpened VERTEX "" f); try lia.
        -- split; discriminate.
        -- intros Hc. destruct (Hf Hc) as [-> _]. split; [reflexivity | discriminate].
        -- intros _. left. auto.
        -- eauto 6.
      * exfalso. destruct (Hopen eq_refl) as [[? _]|[-> ->]]; [contradiction|].
        assert (count_kind FragmentMarker rest = 0) as Hf0.
        { destruct (count_kind FragmentMarker rest) as [|[|n]] eqn:E; [reflexivity| |simpl in Hcf; lia].
          destruct (Hf eq_refl) as [_ ?]. contradiction. }
        apply (fragment_buffer_kept rest VERTEX "" "" type' v' f') in Hrun;
          [contradiction | assumption | discriminate].
      * apply (IH SectionOpened VERTEX "" f); try lia.
        -- split; discriminate.
        -- intros Hc. destruct (Hf Hc) as [-> _]. split; [reflexivity | discriminate].
        -- intros _. left. auto.
        -- eauto 6.
    + (* fragment marker *)
      rewrite body_fragment_marker in Hrun by assumption. cbn [bind] in Hrun.
      assert (count_kind FragmentMarker rest = 0) as Hf0 by lia.
      destruct (Hf ltac:(lia)) as [-> Hnf].
      destruct pos.
      * apply (IH SectionOpened FRAGMENT v ""); try lia.
        -- split; discriminate.
        -- intros Hc. destruct (Hv Hc) as [-> _]. split; [reflexivity | discriminate].
        -- intros _. right. auto.
        -- eauto 6.
      * exfalso. destruct (Hopen eq_refl) as [[-> ->]|[? _]]; [|contradiction].
        assert (count_kind VertexMarker rest = 0) as Hv0.
        { destruct (count_kind VertexMarker rest) as [|[|n]] eqn:E; [reflexivity| |simpl in Hcv; lia].
          destruct (Hv eq_refl) as [_ ?]. contradiction. }
        apply (vertex_buffer_kept rest FRAGMENT "" "" type' v' f') in Hrun;
          [contradiction | assumption | discriminate].
      * apply (IH SectionOpened FRAGMENT v ""); try lia.
        -- split; discriminate.
        -- intros Hc. destruct (Hv Hc) as [-> _]. split; [reflexivity | discriminate].
        -- intros _. right. auto.
        -- eauto 6.
    + (* directive without a stage keyword *)
      rewrite body_plain_directive in Hrun by assumption. cbn [bind] in Hrun.
      apply (IH pos type v f); try assumption. eauto 6.
    + (* content *)
      assert (is_content l) as Hc by (apply classify_content; assumption).
      destruct pos.
      * destruct Hpos as [_ Hpos]. rewrite (Hpos eq_refl) in Hrun.
        rewrite body_content_none in Hrun by assumption. discriminate.
      * assert (type <> NONE) as Ht by (intros E; apply Hpos in E; discriminate).
        rewrite body_content in Hrun by assumption. cbn [bind] in Hrun.
        destruct type; [contradiction| |]; cbn [appended] in Hrun.
        -- apply (IH SectionFilled VERTEX (v ++ l ++ endl) f);
             [assumption | assumption | split; discriminate
             | intros E; destruct (Hv E) as [_ ?]; contradiction
             | assumption | discriminate | eauto 6].
        -- apply (IH SectionFilled FRAGMENT v (f ++ l ++ endl));
             [assumption | assumption | split; discriminate
             | assumption
             | intros E; destruct (Hf E) as [_ ?]; contradiction
             | discriminate | eauto 6].
      * assert (type <> NONE) as Ht by (intros E; apply Hpos in E; discriminate).
        rewrite body_content in Hrun by assumption. cbn [bind] in Hrun.
        destruct type; [contradiction| |]; cbn [appended] in Hrun.
        -- apply (IH SectionFilled VERTEX (v ++ l ++ endl) f);
             [assumption | assumption | split; discriminate
             | intros E; destruct (Hv E) as [_ ?]; contradiction
             | assumption | discriminate | eauto 6].
        -- apply (IH SectionFilled FRAGMENT v (f ++ l ++ endl));
             [assumption | assumption | split; discriminate
             | assumption
             | intros E; destruct (Hf E) as [_ ?]; contradiction
             | discriminate | eauto 6].
Qed.

Lemma two_sources_well_formed fs filepath v f :
  count_kind VertexMarker (stream_lines (ifstream_open fs filepath)) = 1 ->
  count_kind FragmentMarker (stream_lines (ifstream_open fs filepath)) = 1 ->
  ParseShader fs filepath = Returns (mk_ShaderProgramSource v f) ->
  v <> "" -> f <> "" ->
  well_formed (stream_lines (ifstream_open fs filepath)) = true.
Proof.
  intros Hcv Hcf Hrun Hv Hf. rewrite ParseShader_as_lines in Hrun.
  set (lines := stream_lines (ifstream_open fs filepath)) in *.
  destruct (ParseShader_lines lines NONE ss_init) as [[type' ss']|i] eqn:E;
    [|discriminate].
  destruct (buffers_hold_content lines NONE [] [] type' ss'
              (Forall_nil _) (Forall_nil _) E) as (lv & lf & -> & _).
  cbn in Hrun. injection Hrun as <- <-.
  apply (two_sources_well_formed_from lines BeforeSections NONE "" ""); try lia.
  - split; reflexivity.
  - intros _. split; [reflexivity | discriminate].
  - intros _. split; [reflexivity | discriminate].
  - discriminate.
  - eauto 6.
Qed.

End SplitterClaims.

(* ===================================================================== *)
(** ** More about [ParseShader] *)
(* ===================================================================== *)

Section SplitterFacts.
Import Str StrFacts.

(** Once a section is active the loop runs to the end of the file. *)
Lemma active_section_returns lines :
  forall type v f,
    type <> NONE ->
    exists type' v' f',
      ParseShader_lines lines type [v; f] = Returns (type', [v'; f']).
Proof.
  induction lines as [|l rest IH]; intros type v f Ht.
  - exists type, v, f. reflexivity.
  - cbn [ParseShader_lines]. destruct (found "#shader" l) eqn:Hs.
    + rewrite body_directive by assumption. cbn [bind].
      apply IH. unfold section_after.
      destruct (found "vertex" l); [discriminate|].
      destruct (found "fragment" l); [discriminate | assumption].
    + rewrite body_content by assumption. cbn [bind].
      destruct type; [contradiction| |]; cbn [appended]; apply IH; discriminate.
Qed.

Lemma headed_returns lines :
  headed lines = true ->
  exists type' v' f',
    ParseShader_lines lines NONE ss_init = Returns (type', [v'; f']).
Proof.
  unfold ss_init. induction lines as [|l rest IH]; intros H.
  - exists NONE, "", "". reflexivity.
  - cbn [headed] in H. cbn [ParseShader_lines].
    destruct (classify l) eqn:Hk.
    + rewrite body_vertex_marker by assumption. cbn [bind].
      apply active_section_returns. discriminate.
    + rewrite body_fragment_marker by assumption. cbn [bind].
      apply active_section_returns. discriminate.
    + rewrite body_plain_directive by assumption. cbn [bind]. auto.
    + discriminate.
Qed.

Lemma not_headed_out_of_bounds lines ss :
  headed lines = false ->
  ParseShader_lines lines NONE ss = OutOfBounds (-1).
Proof.
  induction lines as [|l rest IH]; intros H; [discriminate|].
  cbn [headed] in H. cbn [ParseShader_lines].
  destruct (classify l) eqn:Hk; try discriminate.
  - rewrite body_plain_directive by assumption. cbn [bind]. auto.
  - apply classify_content in Hk. rewrite body_content_none by assumption.
    reflexivity.
Qed.

(** X1. [ParseShader] returns exactly on the files in which no content line
    comes before the first section marker; on every other file it
    subscripts [ss] with -1. *)
Theorem ParseShader_returns_iff_headed fs filepath :
  if headed (stream_lines (ifstream_open fs filepath))
  then exists source, ParseShader fs filepath = Returns source
  else ParseShader fs filepath = OutOfBounds (-1).
Proof.
  rewrite ParseShader_as_lines.
  destruct (headed (stream_lines (ifstream_open fs filepath))) eqn:H.
  - destruct (headed_returns _ H) as (type' & v' & f' & ->).
    eexists. reflexivity.
  - rewrite not_headed_out_of_bounds by assumption. reflexivity.
Qed.

(** The outcome of [ParseShader], read from the loop over the lines. *)
Lemma ParseShader_returns_lines fs filepath source :
  ParseShader fs filepath = Returns source ->
  exists type',
    ParseShader_lines (stream_lines (ifstream_open fs filepath)) NONE ss_init
    = Returns (type', [VertexSource source; FragmentSource source]).
Proof.
  rewrite ParseShader_as_lines. intros H.
  destruct (ParseShader_lines _ NONE ss_init) as [[type' ss']|i] eqn:E;
    [|discriminate].
  destruct (buffers_hold_content _ NONE [] [] type' ss'
              (Forall_nil _) (Forall_nil _) E) as (lv & lf & -> & _).
  cbn in H. injection H as <-. exists type'. reflexivity.
Qed.

(** X2. Whatever the file, neither string that [ParseShader] returns holds
    the token [#shader]. *)
Theorem ParseShader_sources_hold_no_directive fs filepath source :
  ParseShader fs filepath = Returns source ->
  ~ occurs "#shader" (VertexSource source) /\
  ~ occurs "#shader" (FragmentSource source).
Proof.
  intros H. destruct (ParseShader_returns_lines _ _ _ H) as (type' & E).
  destruct (buffers_hold_content _ NONE [] [] type' _
              (Forall_nil _) (Forall_nil _) E) as (lv & lf & [= -> ->] & Hv & Hf).
  split; apply content_lines_hold_no_directive; assumption.
Qed.

Lemma ParseShader_sources_hold_no_directive_witness :
  ~ occurs "#shader" ("gl_Position = position;" ++ endl) /\
  ~ occurs "#shader" ("color = u_Color;" ++ endl).
Proof.
  apply (ParseShader_sources_hold_no_directive
           (single_file "res/shaders/basic.shader"
              (unlines ["#shader fragment"; "color = u_Color;";
                        "#shader vertex"; "gl_Position = position;"]))
           "res/shaders/basic.shader"
           (mk_ShaderProgramSource ("gl_Position = position;" ++ endl)
                                   ("color = u_Color;" ++ endl))).
  vm_compute. reflexivity.
Defined.

Lemma length_append (a b : string) :
  String.length (a ++ b) = String.length a + String.length b.
Proof. induction a; simpl; congruence. Qed.

Lemma content_size_kept lines :
  forall type v f type' v' f',
    ParseShader_lines lines type [v; f] = Returns (type', [v'; f']) ->
    String.length v' + String.length f'
    = String.length v + String.length f + content_size lines.
Proof.
  induction lines as [|l rest IH]; intros type v f type' v' f' H.
  - simpl in H. injection H as _ <- <-. simpl. lia.
  - cbn [ParseShader_lines content_size] in *.
    destruct (found "#shader" l) eqn:Hs.
    + rewrite body_directive in H by assumption. cbn [bind] in H.
      rewrite (IH _ _ _ _ _ _ H). lia.
    + destruct type.
      * rewrite body_content_none in H by assumption. discriminate.
      * rewrite body_content in H by (assumption || discriminate).
        cbn [bind appended] in H. rewrite (IH _ _ _ _ _ _ H).
        rewrite !length_append. simpl. lia.
      * rewrite body_content in H by (assumption || discriminate).
        cbn [bind appended] in H. rewrite (IH _ _ _ _ _ _ H).
        rewrite !length_append. simpl. lia.
Qed.

(** X3. Nothing is lost and nothing is added: the two strings returned
    hold together as many characters as the content lines of the file, each
    counted with its newline. *)
Theorem ParseShader_keeps_content_size fs filepath source :
  ParseShader fs filepath = Returns source ->
  String.length (VertexSource source) + String.length (FragmentSource source)
  = content_size (stream_lines (ifstream_open fs filepath)).
Proof.
  intros H. destruct (ParseShader_returns_lines _ _ _ H) as (type' & E).
  apply content_size_kept in E. exact E.
Qed.

Lemma ParseShader_keeps_content_size_witness :
  String.length ("gl_Position = position;" ++ endl)
  + String.length ("color = u_Color;" ++ endl)
  = 41.
Proof.
  apply (ParseShader_keeps_content_size
           (single_file "res/shaders/basic.shader"
              (unlines ["#shader fragment"; "color = u_Color;";
                        "#shader vertex"; "gl_Position = position;"]))
           "res/shaders/basic.shader"
           (mk_ShaderProgramSource ("gl_Position = position;" ++ endl)
                                   ("color = u_Color;" ++ endl))).
  vm_compute. reflexivity.
Defined.

(** X4. A stage whose marker the file does not hold gets the empty
    string. *)
Theorem ParseShader_absent_stage_empty fs filepath source :
  ParseShader fs filepath = Returns source ->
  (count_kind VertexMarker (stream_lines (ifstream_open fs filepath)) = 0 ->
   VertexSource source = "") /\
  (count_kind FragmentMarker (stream_lines (ifstream_open fs filepath)) = 0 ->
   FragmentSource source = "").
Proof.
  intros H. destruct (ParseShader_returns_lines _ _ _ H) as (type' & E).
  unfold ss_init in E. split; intros Hc.
  - eapply vertex_buffer_kept; [exact Hc| |exact E]. discriminate.
  - eapply fragment_buffer_kept; [exact Hc| |exact E]. discriminate.
Qed.

Lemma ParseShader_absent_stage_empty_witness :
  FragmentSource (mk_ShaderProgramSource ("gl_Position = position;" ++ endl) "") = "".
Proof.
  apply (proj2 (ParseShader_absent_stage_empty
                  (single_file "res/shaders/basic.shader"
                     (unlines ["#shader vertex"; "gl_Position = position;"]))
                  "res/shaders/basic.shader"
                  (mk_ShaderProgramSource ("gl_Position = position;" ++ endl) "")
                  ltac:(vm_compute; reflexivity))).
  vm_compute. reflexivity.
Defined.

(** X5. Sections of the same stage add up in file order: with a second
    vertex section after the fragment section, [VertexSource] is the first
    vertex block followed by the second. *)
Theorem ParseShader_sections_accumulate fs filepath mv1 c1 mf c2 mv2 c3 :
  classify mv1 = VertexMarker ->
  classify mf = FragmentMarker ->
  classify mv2 = VertexMarker ->
  Forall is_content c1 -> Forall is_content c2 -> Forall is_content c3 ->
  stream_lines (ifstream_open fs filepath)
  = ((mv1 :: c1) ++ (mf :: c2) ++ (mv2 :: c3))%list ->
  ParseShader fs filepath
  = Returns (mk_ShaderProgramSource (unlines c1 ++ unlines c3) (unlines c2)).
Proof.
  intros Hv1 Hf Hv2 H1 H2 H3 Hl.
  rewrite ParseShader_as_lines, Hl, ParseShader_lines_app. unfold ss_init.
  rewrite section_vertex by assumption. cbn [bind].
  rewrite ParseShader_lines_app.
  rewrite section_fragment by assumption. cbn [bind].
  rewrite section_vertex by assumption. reflexivity.
Qed.

Lemma ParseShader_sections_accumulate_witness :
  ParseShader
    (single_file "res/shaders/basic.shader"
       (unlines ["#shader vertex"; "in vec4 position;";
                 "#shader fragment"; "color = u_Color;";
                 "#shader vertex"; "gl_Position = position;"]))
    "res/shaders/basic.shader"
  = Returns (mk_ShaderProgramSource
               (("in vec4 position;" ++ endl) ++ "gl_Position = position;" ++ endl)
               ("color = u_Color;" ++ endl)).
Proof.
  refine (ParseShader_sections_accumulate
            (single_file "res/shaders/basic.shader"
               (unlines ["#shader vertex"; "in vec4 position;";
                         "#shader fragment"; "color = u_Color;";
                         "#shader vertex"; "gl_Position = position;"]))
            "res/shaders/basic.shader"
            "#shader vertex" ["in vec4 position;"]
            "#shader fragment" ["color = u_Color;"]
            "#shader vertex" ["gl_Position = position;"]
            _ _ _ _ _ _ _);
    try reflexivity; repeat constructor.
Defined.

Lemma open_single_file path bytes :
  ifstream_open (single_file path bytes) path = mk_ifstream bytes false false.
Proof.
  unfold ifstream_open, single_file. now rewrite String.eqb_refl.
Qed.

(** X6. Writing and reading back: a file made of the vertex marker, vertex
    lines, the fragment marker and fragment lines, each line closed by a
    newline, parses to exactly the two blocks of lines. *)
Theorem ParseShader_reads_back_written_file path cv cf :
  Forall is_content cv -> Forall is_content cf ->
  Forall (fun l => mem newline l = false) cv ->
  Forall (fun l => mem newline l = false) cf ->
  ParseShader
    (single_file path
       (unlines (("#shader vertex" :: cv) ++ ("#shader fragment" :: cf))))
    path
  = Returns (mk_ShaderProgramSource (unlines cv) (unlines cf)).
Proof.
  intros Hcv Hcf Hnv Hnf.
  rewrite ParseShader_as_lines, open_single_file, stream_lines_unlines.
  - rewrite ParseShader_lines_app. unfold ss_init.
    rewrite section_vertex by (reflexivity || assumption). cbn [bind].
    rewrite section_fragment by (reflexivity || assumption). reflexivity.
  - apply Forall_app. split; constructor; (reflexivity || assumption).
Qed.

Lemma ParseShader_reads_back_written_file_witness :
  ParseShader
    (single_file "res/shaders/basic.shader"
       (unlines (("#shader vertex" :: ["gl_Position = position;"; ""])
                 ++ ("#shader fragment" :: ["color = u_Color;"]))))
    "res/shaders/basic.shader"
  = Returns (mk_ShaderProgramSource
               (unlines ["gl_Position = position;"; ""])
               (unlines ["color = u_Color;"])).
Proof.
  apply (ParseShader_reads_back_written_file
           "res/shaders/basic.shader"
           ["gl_Position = position;"; ""] ["color = u_Color;"]);
    repeat constructor.
Defined.

Lemma read_line_unclosed l :
  mem newline l = false -> read_line l = (l, None).
Proof.
  induction l as [|c l IH]; intros H; [reflexivity|].
  cbn [mem] in H. apply orb_false_elim in H as [Hc Hl].
  cbn [read_line]. rewrite Ascii.eqb_sym, Hc, (IH Hl). reflexivity.
Qed.

(** A last line that no newline closes is read like any other line. *)
Lemma stream_lines_unclosed lines last :
  Forall (fun l => mem newline l = false) lines ->
  mem newline last = false -> last <> "" ->
  stream_lines (mk_ifstream (unlines lines ++ last) false false)
  = (lines ++ [last])%list.
Proof.
  intros H Hlast Hne. induction H as [|l lines Hl _ IH];
    rewrite stream_lines_step; unfold getline;
    cbn [failbit eofbit rdbuf orb unlines].
  - change ("" ++ last) with last. rewrite (read_line_unclosed _ Hlast).
    destruct last as [|c last]; [contradiction|].
    cbn [good failbit negb]. rewrite stream_lines_step. reflexivity.
  - rewrite !app_assoc, (read_line_closed _ _ Hl). cbn [good failbit negb].
    rewrite IH. reflexivity.
Qed.

(** X7. The newline after the last line of the file does not matter: a file
    whose last line no newline closes parses as the same file with that
    newline, and the line reaches its buffer with a newline all the same. *)
Theorem ParseShader_last_line_unclosed path lines last :
  Forall (fun l => mem newline l = false) lines ->
  mem newline last = false -> last <> "" ->
  ParseShader (single_file path (unlines lines ++ last)) path
  = ParseShader (single_file path (unlines (lines ++ [last]))) path.
Proof.
  intros H Hlast Hne.
  rewrite !ParseShader_as_lines, !open_single_file.
  rewrite stream_lines_unclosed by assumption.
  rewrite stream_lines_unlines; [reflexivity|].
  apply Forall_app. split; [assumption | repeat constructor; assumption].
Qed.

Lemma ParseShader_last_line_unclosed_witness :
  ParseShader (single_file "res/shaders/basic.shader"
                 (unlines ["#shader fragment"] ++ "color = u_Color;"))
              "res/shaders/basic.shader"
  = ParseShader (single_file "res/shaders/basic.shader"
                   (unlines (["#shader fragment"] ++ ["color = u_Color;"])))
                "res/shaders/basic.shader".
Proof.
  apply (ParseShader_last_line_unclosed
           "res/shaders/basic.shader" ["#shader fragment"] "color = u_Color;");
    [repeat constructor | reflexivity | discriminate].
Defined.

(** X8. [vertex] is looked for first: a directive line that names both
    stages opens the vertex section, so the content after it is vertex
    source and the fragment source stays empty. *)
Theorem ParseShader_vertex_keyword_first fs filepath m cs :
  occurs "#shader" m -> occurs "vertex" m -> occurs "fragment" m ->
  Forall is_content cs ->
  stream_lines (ifstream_open fs filepath) = m :: cs ->
  ParseShader fs filepath = Returns (mk_ShaderProgramSource (unlines cs) "").
Proof.
  intros Hs Hv _ Hcs Hl. rewrite ParseShader_as_lines, Hl. unfold ss_init.
  rewrite section_vertex; [reflexivity| |assumption].
  unfold classify. apply found_occurs in Hs, Hv. now rewrite Hs, Hv.
Qed.

Lemma ParseShader_vertex_keyword_first_witness :
  ParseShader
    (single_file "res/shaders/basic.shader"
       (unlines ["#shader fragment, after the vertex one"; "color = u_Color;"]))
    "res/shaders/basic.shader"
  = Returns (mk_ShaderProgramSource ("color = u_Color;" ++ endl) "").
Proof.
  refine (ParseShader_vertex_keyword_first
            (single_file "res/shaders/basic.shader"
               (unlines ["#shader fragment, after the vertex one";
                         "color = u_Color;"]))
            "res/shaders/basic.shader"
            "#shader fragment, after the vertex one" ["color = u_Color;"]
            _ _ _ _ _);
    try (apply found_occurs; reflexivity); try reflexivity; repeat constructor.
Defined.

End SplitterFacts.

Local Open Scope Z_scope.

(* ===================================================================== *)
(** ** Claims about the compile and link wrappers *)
(* ===================================================================== *)

Section Wrappers.
Context {D : Type} {libraries : Libraries D}.
Import Str StrFacts.

(** A sequence that returns: so did its first part. *)
Lemma mbind_value {A B} (m : M D A) (k : A -> M D B) w b w' :
  mbind m k w = (Value b, w') ->
  exists a w1, m w = (Value a, w1) /\ k a w1 = (Value b, w').
Proof.
  unfold mbind. destruct (m w) as [[a| | |] w1]; try discriminate.
  intros H. exists a, w1. split; [reflexivity | exact H].
Qed.

Ltac world_lists :=
  unfold log; cbn [lib flags calls cout cerr files fst snd];
  rewrite <- ?List.app_assoc; rewrite ?app_assoc; reflexivity.

(** [CompileShader] when the compile status read back is not [GL_FALSE]. *)
Lemma CompileShader_success (type : GLenum) (source : string) (w : world D) :
  let c1 := respond _ (glCreateShader type) (lib w) in
  let id := answer c1 in
  let c2 := respond _ (glShaderSource id 1 [source]) (next c1) in
  let c3 := respond _ (glCompileShader id) (next c2) in
  let c4 := respond _ (glGetShaderiv id GL_COMPILE_STATUS) (next c3) in
  answer c4 <> GL_FALSE ->
  CompileShader type source w =
  (Value id,
   mk_world (next c4)
            (flags w ++ raised c1 ++ raised c2 ++ raised c3 ++ raised c4)%list
            (calls w ++
             [Call (glCreateShader type);
              Call (glShaderSource id 1 [source]);
              Call (glCompileShader id);
              Call (glGetShaderiv id GL_COMPILE_STATUS)])%list
            (cout w) (cerr w) (files w)).
Proof.
  intros c1 id c2 c3 c4 Hok. unfold CompileShader, mbind. run_calls.
  fold c1. fold id. fold c2. fold c3. fold c4.
  destruct (answer c4 =? GL_FALSE) eqn:E; [apply Z.eqb_eq in E; contradiction|].
  unfold ret. f_equal. f_equal; world_lists.
Qed.

(** [CompileShader] when the compile status is [GL_FALSE] and the log
    length reported is positive. *)
Lemma CompileShader_failure (type : GLenum) (source : string) (w : world D) :
  let c1 := respond _ (glCreateShader type) (lib w) in
  let id := answer c1 in
  let c2 := respond _ (glShaderSource id 1 [source]) (next c1) in
  let c3 := respond _ (glCompileShader id) (next c2) in
  let c4 := respond _ (glGetShaderiv id GL_COMPILE_STATUS) (next c3) in
  let c5 := respond _ (glGetShaderiv id GL_INFO_LOG_LENGTH) (next c4) in
  let c6 := respond _ (glGetShaderInfoLog id (answer c5)) (next c5) in
  let c7 := respond _ (glDeleteShader id) (next c6) in
  answer c4 = GL_FALSE ->
  0 < answer c5 ->
  CompileShader type source w =
  (Value 0,
   mk_world (next c7)
            (flags w ++ raised c1 ++ raised c2 ++ raised c3 ++ raised c4
                     ++ raised c5 ++ raised c6 ++ raised c7)%list
            (calls w ++
             [Call (glCreateShader type);
              Call (glShaderSource id 1 [source]);
              Call (glCompileShader id);
              Call (glGetShaderiv id GL_COMPILE_STATUS);
              Call (glGetShaderiv id GL_INFO_LOG_LENGTH);
              Call (glGetShaderInfoLog id (answer c5));
              Call (glDeleteShader id)])%list
            (cout w)
            (cerr w ++ "Failed to compile "
                    ++ (if type =? GL_VERTEX_SHADER then "vertex" else "fragment")
                    ++ endl ++ snd (answer c6) ++ endl)
            (files w)).
Proof.
  intros c1 id c2 c3 c4 c5 c6 c7 Hfail Hlen. unfold CompileShader, mbind.
  run_calls. fold c1. fold id. fold c2. fold c3. fold c4. rewrite Hfail.
  cbn [Z.eqb GL_FALSE]. run_calls. fold c5.
  destruct (answer c5 <? 0) eqn:Eneg; [apply Z.ltb_lt in Eneg; lia|].
  run_calls. fold c6.
  destruct (answer c5 =? 0) eqn:Ezero; [apply Z.eqb_eq in Ezero; lia|].
  run_calls. fold c7. unfold ret. f_equal. f_equal; world_lists.
Qed.

(** [CompileShader] when the compile status is [GL_FALSE] and the log
    length reported is 0: the stage line is printed, then the buffer of no
    bytes is read. The shader is not deleted. *)
Lemma CompileShader_empty_log (type : GLenum) (source : string) (w : world D) :
  let c1 := respond _ (glCreateShader type) (lib w) in
  let id := answer c1 in
  let c2 := respond _ (glShaderSource id 1 [source]) (next c1) in
  let c3 := respond _ (glCompileShader id) (next c2) in
  let c4 := respond _ (glGetShaderiv id GL_COMPILE_STATUS) (next c3) in
  let c5 := respond _ (glGetShaderiv id GL_INFO_LOG_LENGTH) (next c4) in
  let c6 := respond _ (glGetShaderInfoLog id (answer c5)) (next c5) in
  answer c4 = GL_FALSE ->
  answer c5 = 0 ->
  CompileShader type source w =
  (Undefined,
   mk_world (next c6)
            (flags w ++ raised c1 ++ raised c2 ++ raised c3 ++ raised c4
                     ++ raised c5 ++ raised c6)%list
            (calls w ++
             [Call (glCreateShader type);
              Call (glShaderSource id 1 [source]);
              Call (glCompileShader id);
              Call (glGetShaderiv id GL_COMPILE_STATUS);
              Call (glGetShaderiv id GL_INFO_LOG_LENGTH);
              Call (glGetShaderInfoLog id (answer c5))])%list
            (cout w)
            (cerr w ++ "Failed to compile "
                    ++ (if type =? GL_VERTEX_SHADER then "vertex" else "fragment")
                    ++ endl)
            (files w)).
Proof.
  intros c1 id c2 c3 c4 c5 c6 Hfail Hlen. unfold CompileShader, mbind.
  run_calls. fold c1. fold id. fold c2. fold c3. fold c4. rewrite Hfail.
  cbn [Z.eqb GL_FALSE]. run_calls. fold c5.
  destruct (answer c5 <? 0) eqn:Eneg; [apply Z.ltb_lt in Eneg; lia|].
  run_calls. fold c6.
  destruct (answer c5 =? 0) eqn:Ezero; [|apply Z.eqb_neq in Ezero; contradiction].
  unfold undefined. f_equal. f_equal; world_lists.
Qed.

(** [CompileShader] when the compile status is [GL_FALSE] and the log
    length reported is negative: [alloca] is asked for that many bytes. *)
Lemma CompileShader_negative_log (type : GLenum) (source : string) (w : world D) :
  let c1 := respond _ (glCreateShader type) (lib w) in
  let id := answer c1 in
  let c2 := respond _ (glShaderSource id 1 [source]) (next c1) in
  let c3 := respond _ (glCompileShader id) (next c2) in
  let c4 := respond _ (glGetShaderiv id GL_COMPILE_STATUS) (next c3) in
  let c5 := respond _ (glGetShaderiv id GL_INFO_LOG_LENGTH) (next c4) in
  answer c4 = GL_FALSE ->
  answer c5 < 0 ->
  fst (CompileShader type source w) = Undefined /\
  cerr (snd (CompileShader type source w)) = cerr w.
Proof.
  intros c1 id c2 c3 c4 c5 Hfail Hlen. unfold CompileShader, mbind.
  run_calls. fold c1. fold id. fold c2. fold c3. fold c4. rewrite Hfail.
  cbn [Z.eqb GL_FALSE]. run_calls. fold c5.
  destruct (answer c5 <? 0) eqn:Eneg; [|apply Z.ltb_ge in Eneg; lia].
  split; reflexivity.
Qed.

(** What a [CompileShader] that returns has done to the world. *)
Lemma CompileShader_value (type : GLenum) (source : string) (w w' : world D)
    (handle : GLuint) :
  CompileShader type source w = (Value handle, w') ->
  exists made more,
    calls w' = (calls w ++ made)%list /\
    forallb (fun c => negb (queries_program c)) made = true /\
    forallb (fun c => negb (reads_error_flag c)) made = true /\
    flags w' = (flags w ++ more)%list /\
    cout w' = cout w /\ files w' = files w.
Proof.
  set (c4 := respond _ (glGetShaderiv (answer (respond _ (glCreateShader type) (lib w)))
                                      GL_COMPILE_STATUS)
               (next (respond _ (glCompileShader (answer (respond _ (glCreateShader type) (lib w))))
                        (next (respond _ (glShaderSource (answer (respond _ (glCreateShader type) (lib w))) 1 [source])
                                 (next (respond _ (glCreateShader type) (lib w)))))))).
  set (c5 := respond _ (glGetShaderiv (answer (respond _ (glCreateShader type) (lib w)))
                                      GL_INFO_LOG_LENGTH) (next c4)).
  destruct (Z.eq_dec (answer c4) GL_FALSE) as [Hfail|Hok].
  - destruct (Z_lt_le_dec 0 (answer c5)) as [Hpos|Hle].
    + rewrite (CompileShader_failure type source w Hfail Hpos).
      intros [= _ <-]. do 2 eexists. cbn [calls flags cout files].
      repeat split; reflexivity.
    + destruct (Z.eq_dec (answer c5) 0) as [Hz|Hnz].
      * rewrite (CompileShader_empty_log type source w Hfail Hz). discriminate.
      * intros H. assert (Hneg : answer c5 < 0) by lia.
        destruct (CompileShader_negative_log type source w Hfail Hneg) as [E _].
        rewrite H in E. discriminate.
  - rewrite (CompileShader_success type source w Hok).
    intros [= _ <-]. do 2 eexists. cbn [calls flags cout files].
    repeat split; reflexivity.
Qed.

(** [CreateShader] in closed form, when both runs of [CompileShader]
    return. *)
Lemma CreateShader_closed (vertexShader fragmentShader : string) (w : world D)
    (vs fs : GLuint) (w2 w3 : world D) :
  let cp := respond _ glCreateProgram (lib w) in
  let program := answer cp in
  let w1 := mk_world (next cp) (flags w ++ raised cp) (log glCreateProgram w)
                     (cout w) (cerr w) (files w) in
  CompileShader GL_VERTEX_SHADER vertexShader w1 = (Value vs, w2) ->
  CompileShader GL_FRAGMENT_SHADER fragmentShader w2 = (Value fs, w3) ->
  let a1 := respond _ (glAttachShader program vs) (lib w3) in
  let a2 := respond _ (glAttachShader program fs) (next a1) in
  let a3 := respond _ (glLinkProgram program) (next a2) in
  let a4 := respond _ (glValidateProgram program) (next a3) in
  let a5 := respond _ (glDeleteShader vs) (next a4) in
  let a6 := respond _ (glDeleteShader fs) (next a5) in
  CreateShader vertexShader fragmentShader w =
  (Value program,
   mk_world (next a6)
            (flags w3 ++ raised a1 ++ raised a2 ++ raised a3 ++ raised a4
                      ++ raised a5 ++ raised a6)%list
            (calls w3 ++
             [Call (glAttachShader program vs);
              Call (glAttachShader program fs);
              Call (glLinkProgram program);
              Call (glValidateProgram program);
              Call (glDeleteShader vs);
              Call (glDeleteShader fs)])%list
            (cout w3) (cerr w3) (files w3)).
Proof.
  intros cp program w1 Hvs Hfs a1 a2 a3 a4 a5 a6.
  unfold CreateShader. unfold mbind at 1.
  change (api glCreateProgram w) with (Value program, w1).
  unfold mbind at 1. rewrite Hvs. unfold mbind at 1. rewrite Hfs.
  unfold mbind. run_calls. f_equal. f_equal; world_lists.
Qed.

(** What a [CreateShader] that returns has done to the world. *)
Lemma CreateShader_value (vertexShader fragmentShader : string)
    (w w' : world D) (handle : GLuint) :
  CreateShader vertexShader fragmentShader w = (Value handle, w') ->
  handle = answer (respond _ glCreateProgram (lib w)) /\
  cout w' = cout w /\ files w' = files w /\
  exists made,
    calls w' = (calls w ++ made)%list /\
    forallb (fun c => negb (reads_error_flag c)) made = true.
Proof.
  intros H. pose proof H as Hrun. unfold CreateShader in Hrun.
  apply mbind_value in Hrun as (p & w1 & Hp & Hrun).
  cbn [api] in Hp. injection Hp as <- <-.
  apply mbind_value in Hrun as (vs & w2 & Hvs & Hrun).
  apply mbind_value in Hrun as (fs & w3 & Hfs & _).
  rewrite (CreateShader_closed _ _ _ _ _ _ _ Hvs Hfs) in H.
  injection H as <- <-.
  destruct (CompileShader_value _ _ _ _ _ Hvs)
    as (made2 & more2 & Hl2 & _ & Hr2 & _ & Hc2 & Hf2).
  destruct (CompileShader_value _ _ _ _ _ Hfs)
    as (made3 & more3 & Hl3 & _ & Hr3 & _ & Hc3 & Hf3).
  cbn [cout files calls]. rewrite Hc3, Hc2, Hf3, Hf2, Hl3, Hl2.
  unfold log. cbn [cout files calls].
  split; [reflexivity|]. split; [reflexivity|]. split; [reflexivity|].
  eexists. split; [rewrite <- !List.app_assoc; reflexivity|].
  cbn [app forallb reads_error_flag negb andb].
  rewrite !forallb_app, Hr2, Hr3. reflexivity.
Qed.

(** X21. For every stage and source: when the compile-status flag read back
    is false and the log length reported is positive, [CompileShader] writes
    to [std::cerr] the line naming the stage ([vertex] or [fragment]) and
    then the diagnostic log, retrieved with a buffer of the length reported;
    its last call deletes the shader object, and it returns the sentinel 0.
    When the flag is not false it returns the handle [glCreateShader] gave,
    nonzero as it is for a created object, prints nothing and deletes
    nothing. *)
Theorem CompileShader_reports_failure (s : stage) (source : string) (w : world D) :
  let c1 := respond _ (glCreateShader (stage_enum s)) (lib w) in
  let id := answer c1 in
  let c2 := respond _ (glShaderSource id 1 [source]) (next c1) in
  let c3 := respond _ (glCompileShader id) (next c2) in
  let c4 := respond _ (glGetShaderiv id GL_COMPILE_STATUS) (next c3) in
  let c5 := respond _ (glGetShaderiv id GL_INFO_LOG_LENGTH) (next c4) in
  let c6 := respond _ (glGetShaderInfoLog id (answer c5)) (next c5) in
  let c7 := respond _ (glDeleteShader id) (next c6) in
  (answer c4 = GL_FALSE -> 0 < answer c5 ->
   exists w',
     CompileShader (stage_enum s) source w = (Value 0, w') /\
     cerr w' = cerr w ++ "Failed to compile " ++ stage_name s ++ endl
                      ++ snd (answer c6) ++ endl /\
     cout w' = cout w /\
     calls w' = (calls w ++
                 [Call (glCreateShader (stage_enum s));
                  Call (glShaderSource id 1 [source]);
                  Call (glCompileShader id);
                  Call (glGetShaderiv id GL_COMPILE_STATUS);
                  Call (glGetShaderiv id GL_INFO_LOG_LENGTH);
                  Call (glGetShaderInfoLog id (answer c5));
                  Call (glDeleteShader id)])%list /\
     lib w' = next c7) /\
  (answer c4 <> GL_FALSE -> id <> 0 ->
   exists handle w',
     CompileShader (stage_enum s) source w = (Value handle, w') /\
     handle = id /\ handle <> 0 /\
     cerr w' = cerr w /\
     cout w' = cout w /\
     calls w' = (calls w ++
                 [Call (glCreateShader (stage_enum s));
                  Call (glShaderSource id 1 [source]);
                  Call (glCompileShader id);
                  Call (glGetShaderiv id GL_COMPILE_STATUS)])%list /\
     lib w' = next c4).
Proof.
  intros c1 id c2 c3 c4 c5 c6 c7. split.
  - intros Hfail Hlen. eexists.
    split; [apply CompileShader_failure; assumption|].
    cbn [lib calls cout cerr]. repeat split. destruct s; reflexivity.
  - intros Hok Hid. exists id. eexists.
    split; [apply CompileShader_success; assumption|].
    cbn [lib calls cout cerr]. repeat split. assumption.
Qed.

(** C2. [CreateShader] attaches both handles that [CompileShader] returned,
    whatever they are (the sentinel 0 included), then asks for link and
    validation, deletes both shader handles and returns the program handle.
    It prints nothing itself, and none of the calls made is a query of the
    program's status. It returns only when both runs of [CompileShader]
    return. *)
Theorem CreateShader_attaches_both (vertexShader fragmentShader : string)
    (w : world D) :
  let cp := respond _ glCreateProgram (lib w) in
  let program := answer cp in
  let w1 := mk_world (next cp) (flags w ++ raised cp) (log glCreateProgram w)
                     (cout w) (cerr w) (files w) in
  api glCreateProgram w = (Value program, w1) /\
  (forall vs w2 fs w3,
      CompileShader GL_VERTEX_SHADER vertexShader w1 = (Value vs, w2) ->
      CompileShader GL_FRAGMENT_SHADER fragmentShader w2 = (Value fs, w3) ->
      exists w',
        CreateShader vertexShader fragmentShader w = (Value program, w') /\
        calls w' = (calls w3 ++
                    [Call (glAttachShader program vs);
                     Call (glAttachShader program fs);
                     Call (glLinkProgram program);
                     Call (glValidateProgram program);
                     Call (glDeleteShader vs);
                     Call (glDeleteShader fs)])%list /\
        cerr w' = cerr w3 /\
        cout w' = cout w /\
        exists made,
          calls w' = (calls w ++ made)%list /\
          forallb (fun c => negb (queries_program c)) made = true) /\
  (forall handle w',
      CreateShader vertexShader fragmentShader w = (Value handle, w') ->
      exists vs w2 fs w3,
        CompileShader GL_VERTEX_SHADER vertexShader w1 = (Value vs, w2) /\
        CompileShader GL_FRAGMENT_SHADER fragmentShader w2 = (Value fs, w3)).
Proof.
  intros cp program w1. split; [reflexivity|]. split.
  - intros vs w2 fs w3 Hvs Hfs.
    destruct (CompileShader_value _ _ _ _ _ Hvs)
      as (made2 & more2 & Hl2 & Hq2 & _ & _ & Hc2 & _).
    destruct (CompileShader_value _ _ _ _ _ Hfs)
      as (made3 & more3 & Hl3 & Hq3 & _ & _ & Hc3 & _).
    eexists. unfold CreateShader. unfold mbind at 1.
    change (api glCreateProgram w) with (Value program, w1).
    unfold mbind at 1. rewrite Hvs. unfold mbind at 1. rewrite Hfs.
    unfold mbind. run_calls.
    split; [reflexivity|]. run_calls.
    split; [rewrite <- !List.app_assoc; reflexivity|].
    split; [reflexivity|].
    split; [rewrite Hc3, Hc2; reflexivity|].
    eexists. split.
    + rewrite Hl3, Hl2. unfold w1, log. cbn [calls].
      rewrite <- !List.app_assoc. reflexivity.
    + cbn [app forallb queries_program negb andb].
      rewrite !forallb_app, Hq2, Hq3. reflexivity.
  - intros handle w' H. unfold CreateShader in H.
    apply mbind_value in H as (p & w1' & Hp & H).
    change (api glCreateProgram w) with (Value program, w1) in Hp.
    injection Hp as <- <-.
    apply mbind_value in H as (vs & w2 & Hvs & H).
    apply mbind_value in H as (fs & w3 & Hfs & _).
    exists vs, w2, fs, w3. split; assumption.
Qed.

(* ===================================================================== *)
(** ** Claims about the diagnostic call wrapper *)
(* ===================================================================== *)

(** [GLClearError], unfolded once. *)
Lemma GLClearError_step (w : world D) :
  GLClearError w =
  match flags w with
  | [] => (Value tt,
           mk_world (lib w) [] (log glGetError w) (cout w) (cerr w) (files w))
  | _ :: rest =>
      GLClearError
        (mk_world (lib w) rest (log glGetError w) (cout w) (cerr w) (files w))
  end.
Proof.
  funelim (GLClearError w);
    match goal with H : api glGetError ?w = _ |- _ =>
      pose proof H as Hc; unfold api in Hc;
      destruct (flags w); inversion Hc; subst
    end;
    try reflexivity; discriminate.
Qed.

(** [GLClearError] returns, and leaves no error flag raised; it reads the
    flag once more than there were flags, and touches nothing else. *)
Lemma GLClearError_drains (w : world D) :
  exists w',
    GLClearError w = (Value tt, w') /\
    flags w' = [] /\
    lib w' = lib w /\ cout w' = cout w /\ cerr w' = cerr w /\
    files w' = files w /\
    calls w' = (calls w ++ repeat (Call glGetError) (S (List.length (flags w))))%list.
Proof.
  remember (flags w) as fl eqn:Hfl. revert w Hfl.
  induction fl as [|e rest IH]; intros w Hfl; rewrite GLClearError_step, <- Hfl.
  - eexists. split; [reflexivity|]. repeat split.
  - destruct (IH (mk_world (lib w) rest (log glGetError w) (cout w) (cerr w) (files w))
                 eq_refl) as (w' & -> & Hf & Hl & Hco & Hce & Hfi & Hca).
    exists w'. split; [reflexivity|]. cbn [lib cout cerr files calls] in *.
    repeat split; try assumption.
    rewrite Hca. unfold log. rewrite <- List.app_assoc. reflexivity.
Qed.

(** C6. [GLCall] first drains the error flags: [GLClearError] returns with
    no flag left raised. It then runs the wrapped call, and reads the error
    flag once more. With no flag raised by the call it gives the call's own
    value; with a flag raised it prints the error code, the file, the text
    of the wrapped expression and the line to [std::cout] and stops in the
    breakpoint trap. No error code goes back to the caller. *)
Theorem GLCall_drains_runs_traps {A : Type} (x : M D A)
    (function file : string) (line : Z) (w : world D) :
  exists w0,
    GLClearError w = (Value tt, w0) /\
    flags w0 = [] /\
    forall (a : A) (w1 : world D),
      x w0 = (Value a, w1) ->
      match flags w1 with
      | [] =>
          GLCall x function file line w =
          (Value a,
           mk_world (lib w1) [] (log glGetError w1) (cout w1) (cerr w1) (files w1))
      | error :: rest =>
          GLCall x function file line w =
          (Trapped,
           mk_world (lib w1) rest (log glGetError w1)
             (cout w1 ++ "[OpenGL Error] (" ++ decimal (Zpos error)
                      ++ ") in file " ++ file
                      ++ " on function " ++ function
                      ++ " at line " ++ decimal line ++ endl)
             (cerr w1) (files w1))
      end.
Proof.
  destruct (GLClearError_drains w) as (w0 & Hclear & Hflags & _).
  exists w0. split; [exact Hclear|]. split; [exact Hflags|].
  intros a w1 Hx. unfold GLCall, mbind. rewrite Hclear, Hx.
  unfold GLLogCall, mbind, api.
  destruct (flags w1) as [|error rest]; reflexivity.
Qed.

(* ===================================================================== *)
(** ** Claims about [main] *)
(* ===================================================================== *)

Lemma api_library_call {A} (call : API A) (w : world D) :
  library_call call = true ->
  api call w =
  (Value (answer (respond _ call (lib w))),
   mk_world (next (respond _ call (lib w)))
            (flags w ++ raised (respond _ call (lib w)))
            (log call w) (cout w) (cerr w) (files w)).
Proof.
  destruct call; (discriminate || reflexivity).
Qed.

Lemma mbind_api {A B} (call : API A) (k : A -> M D B) (w : world D) :
  library_call call = true ->
  mbind (api call) k w =
  k (answer (respond _ call (lib w)))
    (mk_world (next (respond _ call (lib w)))
              (flags w ++ raised (respond _ call (lib w)))
              (log call w) (cout w) (cerr w) (files w)).
Proof.
  intros H. unfold mbind. rewrite api_library_call by assumption. reflexivity.
Qed.

Ltac call_library :=
  rewrite mbind_api by reflexivity; cbn [lib flags calls cout cerr files].

(** When [glfwInit] fails, [main] returns -1 and prints nothing. *)
Lemma main_glfwInit_fails frames file (w : world D) :
  answer (respond _ glfwInit (lib w)) = 0 ->
  exists w',
    main frames file w = (Value (-1), w') /\
    cerr w' = cerr w /\ cout w' = cout w /\
    calls w' = (calls w ++ [Call glfwInit])%list.
Proof.
  intros H. eexists. unfold main. call_library. rewrite H.
  split; [reflexivity|]. repeat split.
Qed.

(** When no window can be created, [main] returns -1 and prints nothing. *)
Lemma main_window_fails frames file (w : world D) :
  let c1 := respond _ glfwInit (lib w) in
  let c2 := respond _ (glfwCreateWindow 640 480 "Hello World" NULL NULL) (next c1) in
  answer c1 <> 0 ->
  answer c2 = NULL ->
  exists w',
    main frames file w = (Value (-1), w') /\
    cerr w' = cerr w /\ cout w' = cout w /\
    calls w' = (calls w ++
                [Call glfwInit;
                 Call (glfwCreateWindow 640 480 "Hello World" NULL NULL);
                 Call glfwTerminate])%list.
Proof.
  intros c1 c2 H1 H2. eexists. unfold main. call_library. fold c1.
  destruct (answer c1 =? 0) eqn:E; [apply Z.eqb_eq in E; contradiction|].
  call_library. fold c2. rewrite H2. cbn [Z.eqb NULL].
  call_library. split; [reflexivity|]. cbn [lib flags calls cout cerr files].
  repeat split. unfold log. cbn [calls].
  rewrite <- !List.app_assoc. reflexivity.
Qed.

(** When [glewInit] fails, [main] returns -1 after a line on [std::cerr]. *)
Lemma main_glewInit_fails frames file (w : world D) :
  let c1 := respond _ glfwInit (lib w) in
  let c2 := respond _ (glfwCreateWindow 640 480 "Hello World" NULL NULL) (next c1) in
  let c3 := respond _ (glfwMakeContextCurrent (answer c2)) (next c2) in
  let c4 := respond _ (glfwSwapInterval 0) (next c3) in
  let c5 := respond _ glewInit (next c4) in
  answer c1 <> 0 ->
  answer c2 <> NULL ->
  answer c5 <> GLEW_OK ->
  exists w',
    main frames file w = (Value (-1), w') /\
    cerr w' = cerr w ++ "[ERROR] Error initializing GLEW" ++ endl /\
    cout w' = cout w.
Proof.
  intros c1 c2 c3 c4 c5 H1 H2 H5. eexists. unfold main. call_library. fold c1.
  destruct (answer c1 =? 0) eqn:E1; [apply Z.eqb_eq in E1; contradiction|].
  call_library. fold c2.
  destruct (answer c2 =? NULL) eqn:E2; [apply Z.eqb_eq in E2; contradiction|].
  do 3 call_library. fold c3. fold c4. fold c5.
  destruct (answer c5 =? GLEW_OK) eqn:E5; [apply Z.eqb_eq in E5; contradiction|].
  cbn [negb]. unfold mbind at 1. cbn [cerr_put].
  split; [reflexivity|]. repeat split.
Qed.

(** Whenever [main] returns, it returns 0 or -1; it returns 0 exactly when
    the three initialisations succeeded. *)
Lemma main_exit_code frames file (w w' : world D) (code : Z) :
  let c1 := respond _ glfwInit (lib w) in
  let c2 := respond _ (glfwCreateWindow 640 480 "Hello World" NULL NULL) (next c1) in
  let c3 := respond _ (glfwMakeContextCurrent (answer c2)) (next c2) in
  let c4 := respond _ (glfwSwapInterval 0) (next c3) in
  let c5 := respond _ glewInit (next c4) in
  main frames file w = (Value code, w') ->
  (code = 0 /\ answer c1 <> 0 /\ answer c2 <> NULL /\ answer c5 = GLEW_OK) \/
  (code = -1 /\ (answer c1 = 0 \/ answer c2 = NULL \/ answer c5 <> GLEW_OK)).
Proof.
  intros c1 c2 c3 c4 c5. unfold main. call_library. fold c1.
  destruct (answer c1 =? 0) eqn:E1.
  { apply Z.eqb_eq in E1. intros [= <- _]. right. auto. }
  apply Z.eqb_neq in E1. call_library. fold c2.
  destruct (answer c2 =? NULL) eqn:E2.
  { apply Z.eqb_eq in E2. call_library. intros [= <- _]. right. auto. }
  apply Z.eqb_neq in E2. do 3 call_library. fold c3. fold c4. fold c5.
  destruct (answer c5 =? GLEW_OK) eqn:E5; cbn [negb].
  - apply Z.eqb_eq in E5. intros H. left.
    repeat (apply mbind_value in H as (? & ? & _ & H)).
    injection H as <- _. auto.
  - apply Z.eqb_neq in E5. unfold mbind at 1. cbn [cerr_put].
    intros [= <- _]. right. auto.
Qed.

End Wrappers.

(* ===================================================================== *)
(** ** More about the diagnostic call wrapper *)
(* ===================================================================== *)

Ltac step_call :=
  rewrite mbind_api by reflexivity; cbn [lib flags calls cout cerr files].

Section WrapperFacts.
Context {D : Type} {libraries : Libraries D}.
Import Str StrFacts.

(** X9. [GLClearError] in closed form: it reads the error flag once for
    each raised flag and once more, leaves no flag raised, and touches
    neither the libraries' state nor the two output streams. *)
Theorem GLClearError_closed_form (w : world D) :
  GLClearError w =
  (Value tt,
   mk_world (lib w) []
            (calls w ++ repeat (Call glGetError) (S (List.length (flags w))))%list
            (cout w) (cerr w) (files w)).
Proof.
  destruct (GLClearError_drains w) as (w' & -> & Hf & Hl & Hco & Hce & Hfi & Hca).
  destruct w'. cbn in *. subst. reflexivity.
Qed.

(** [GLCall] around a library call, in closed form. *)
Lemma GLCall_api {A} (call : API A) (function file : string) (line : Z)
    (w : world D) :
  library_call call = true ->
  GLCall (api call) function file line w =
  let r := respond _ call (lib w) in
  let made := (calls w ++ repeat (Call glGetError) (S (List.length (flags w)))
                       ++ [Call call; Call glGetError])%list in
  match raised r with
  | [] =>
      (Value (answer r),
       mk_world (next r) [] made (cout w) (cerr w) (files w))
  | error :: rest =>
      (Trapped,
       mk_world (next r) rest made
                (cout w ++ error_line error function file line)
                (cerr w) (files w))
  end.
Proof.
  intros Hc. unfold GLCall. unfold mbind at 1.
  destruct (GLClearError_drains w) as (w0 & -> & Hf & Hl & Hco & Hce & Hfi & Hca).
  destruct w0 as [lib0 flags0 calls0 cout0 cerr0 files0]. cbn in Hf, Hl, Hco, Hce, Hfi, Hca.
  subst lib0 flags0 calls0 cout0 cerr0 files0.
  rewrite mbind_api by assumption. cbn [lib flags calls cout cerr files app].
  unfold GLLogCall, mbind, api, log. cbn [lib flags calls cout cerr files].
  destruct (raised (respond A call (lib w))) as [|error rest];
    cbn; rewrite <- !List.app_assoc; reflexivity.
Qed.

(** X10. Flags raised before the wrapped call are never reported: with any
    flags pending at entry, [GLCall] around a library call ends as it does
    with none pending, prints the same and leaves the same flags raised. *)
Theorem GLCall_ignores_stale_flags {A} (call : API A)
    (function file : string) (line : Z) (w : world D) (stale : list positive) :
  library_call call = true ->
  let clean := GLCall (api call) function file line (with_flags w []) in
  let dirty := GLCall (api call) function file line (with_flags w stale) in
  fst dirty = fst clean /\
  cout (snd dirty) = cout (snd clean) /\
  cerr (snd dirty) = cerr (snd clean) /\
  flags (snd dirty) = flags (snd clean) /\
  lib (snd dirty) = lib (snd clean).
Proof.
  intros Hc. cbv zeta. rewrite !GLCall_api by assumption.
  unfold with_flags. cbn [lib flags calls cout cerr files].
  destruct (raised (respond A call (lib w))); cbn; repeat split.
Qed.

(** X11. [GLCall] around a library call ends in the trap exactly when that
    call raises an error flag; when it raises none, [GLCall] gives the
    call's answer, prints nothing and leaves no flag raised. *)
Theorem GLCall_traps_iff_call_raises {A} (call : API A)
    (function file : string) (line : Z) (w : world D) :
  library_call call = true ->
  let run := GLCall (api call) function file line w in
  (fst run = Trapped <-> raised (respond _ call (lib w)) <> []) /\
  (raised (respond _ call (lib w)) = [] ->
   fst run = Value (answer (respond _ call (lib w))) /\
   flags (snd run) = [] /\ cout (snd run) = cout w).
Proof.
  intros Hc. cbv zeta. rewrite GLCall_api by assumption. cbv zeta.
  destruct (raised (respond A call (lib w))); cbn; split.
  - split; [discriminate | intros H; contradiction].
  - intros _. repeat split.
  - split; [discriminate | reflexivity].
  - discriminate.
Qed.

(** X12. [CompileShader] never reads the error flag and never ends in the
    trap. When it returns, the flags raised before the call are still raised
    and after them, in order, the flags its own library calls raised: those
    of four calls when the shader compiled, of seven when it did not and a
    log is there. None of the calls it made is [glGetError], and nothing
    went to [std::cout]. *)
Theorem CompileShader_leaves_flags_raised (type : GLenum) (source : string)
    (w : world D) :
  let c1 := respond _ (glCreateShader type) (lib w) in
  let id := answer c1 in
  let c2 := respond _ (glShaderSource id 1 [source]) (next c1) in
  let c3 := respond _ (glCompileShader id) (next c2) in
  let c4 := respond _ (glGetShaderiv id GL_COMPILE_STATUS) (next c3) in
  let c5 := respond _ (glGetShaderiv id GL_INFO_LOG_LENGTH) (next c4) in
  let c6 := respond _ (glGetShaderInfoLog id (answer c5)) (next c5) in
  let c7 := respond _ (glDeleteShader id) (next c6) in
  (answer c4 <> GL_FALSE ->
   exists w',
     CompileShader type source w = (Value id, w') /\
     flags w' = (flags w ++ raised c1 ++ raised c2 ++ raised c3
                         ++ raised c4)%list) /\
  (answer c4 = GL_FALSE -> 0 < answer c5 ->
   exists w',
     CompileShader type source w = (Value 0, w') /\
     flags w' = (flags w ++ raised c1 ++ raised c2 ++ raised c3 ++ raised c4
                         ++ raised c5 ++ raised c6 ++ raised c7)%list) /\
  fst (CompileShader type source w) <> Trapped /\
  (forall handle w',
      CompileShader type source w = (Value handle, w') ->
      cout w' = cout w /\
      exists made,
        calls w' = (calls w ++ made)%list /\
        forallb (fun c => negb (reads_error_flag c)) made = true).
Proof.
  intros c1 id c2 c3 c4 c5 c6 c7.
  split; [|split; [|split]].
  - intros Hok. eexists.
    split; [apply CompileShader_success; assumption | reflexivity].
  - intros Hfail Hlen. eexists.
    split; [apply CompileShader_failure; assumption | reflexivity].
  - destruct (Z.eq_dec (answer c4) GL_FALSE) as [Hfail|Hok].
    + destruct (Z_lt_le_dec 0 (answer c5)) as [Hpos|Hle].
      * rewrite (CompileShader_failure (libraries := libraries) type source w Hfail Hpos). discriminate.
      * destruct (Z.eq_dec (answer c5) 0) as [Hz|Hnz].
        -- rewrite (CompileShader_empty_log (libraries := libraries) type source w Hfail Hz). discriminate.
        -- assert (Hneg : answer c5 < 0) by lia.
           destruct (CompileShader_negative_log (libraries := libraries) type source w Hfail Hneg) as [-> _].
           discriminate.
    + rewrite (CompileShader_success (libraries := libraries) type source w Hok). discriminate.
  - intros handle w' H.
    destruct (CompileShader_value _ _ _ _ _ H)
      as (made & more & Hl & _ & Hr & _ & Hc & _).
    split; [exact Hc|]. exists made. split; assumption.
Qed.

(** X13. Every stage but [GL_VERTEX_SHADER] is called [fragment] in the
    failure message, a geometry shader for one: so it is whenever the
    compile status is false and the log length reported is positive. *)
Theorem CompileShader_other_stage_named_fragment (type : GLenum)
    (source : string) (w : world D) :
  let c1 := respond _ (glCreateShader type) (lib w) in
  let id := answer c1 in
  let c2 := respond _ (glShaderSource id 1 [source]) (next c1) in
  let c3 := respond _ (glCompileShader id) (next c2) in
  let c4 := respond _ (glGetShaderiv id GL_COMPILE_STATUS) (next c3) in
  let c5 := respond _ (glGetShaderiv id GL_INFO_LOG_LENGTH) (next c4) in
  let c6 := respond _ (glGetShaderInfoLog id (answer c5)) (next c5) in
  type <> GL_VERTEX_SHADER ->
  answer c4 = GL_FALSE ->
  0 < answer c5 ->
  exists w',
    CompileShader type source w = (Value 0, w') /\
    cerr w' = cerr w ++ "Failed to compile fragment" ++ endl
                     ++ snd (answer c6) ++ endl.
Proof.
  intros c1 id c2 c3 c4 c5 c6 Ht Hfail Hlen. eexists.
  split; [apply CompileShader_failure; assumption|].
  cbn [cerr].
  destruct (type =? GL_VERTEX_SHADER) eqn:E; [apply Z.eqb_eq in E; contradiction|].
  reflexivity.
Qed.

(** X14. [CreateShader] never reads the error flag. When both runs of
    [CompileShader] return, the flags raised by then are still raised when
    [CreateShader] returns, and after them, in order, the flags its six
    further calls raised (attaching the sentinel 0, say): they are left for
    whoever reads the flag next. None of the calls made is [glGetError], and
    nothing went to [std::cout]. *)
Theorem CreateShader_leaves_flags_raised (vertexShader fragmentShader : string)
    (w : world D) (vs fs : GLuint) (w2 w3 : world D) :
  let cp := respond _ glCreateProgram (lib w) in
  let program := answer cp in
  let w1 := mk_world (next cp) (flags w ++ raised cp) (log glCreateProgram w)
                     (cout w) (cerr w) (files w) in
  CompileShader GL_VERTEX_SHADER vertexShader w1 = (Value vs, w2) ->
  CompileShader GL_FRAGMENT_SHADER fragmentShader w2 = (Value fs, w3) ->
  let a1 := respond _ (glAttachShader program vs) (lib w3) in
  let a2 := respond _ (glAttachShader program fs) (next a1) in
  let a3 := respond _ (glLinkProgram program) (next a2) in
  let a4 := respond _ (glValidateProgram program) (next a3) in
  let a5 := respond _ (glDeleteShader vs) (next a4) in
  let a6 := respond _ (glDeleteShader fs) (next a5) in
  exists w',
    CreateShader vertexShader fragmentShader w = (Value program, w') /\
    flags w' = (flags w3 ++ raised a1 ++ raised a2 ++ raised a3 ++ raised a4
                         ++ raised a5 ++ raised a6)%list /\
    lib w' = next a6 /\
    cout w' = cout w /\
    exists made,
      calls w' = (calls w ++ made)%list /\
      forallb (fun c => negb (reads_error_flag c)) made = true.
Proof.
  intros cp program w1 Hvs Hfs a1 a2 a3 a4 a5 a6.
  pose proof (CreateShader_closed _ _ _ _ _ _ _ Hvs Hfs) as H.
  destruct (CreateShader_value _ _ _ _ _ H) as (_ & Hc & _ & Hmade).
  eexists. split; [exact H|].
  split; [reflexivity|]. split; [reflexivity|]. split; [exact Hc | exact Hmade].
Qed.

(* ===================================================================== *)
(** ** More about [main] *)
(* ===================================================================== *)

(** X15. When [glewInit] fails, [main] leaves at once: the five calls up to
    [glewInit] are all it makes, so GLFW is not terminated on this path
    (as it is when no window could be created). *)
Theorem main_glewInit_failure_skips_terminate frames file (w : world D) :
  let c1 := respond _ glfwInit (lib w) in
  let c2 := respond _ (glfwCreateWindow 640 480 "Hello World" NULL NULL) (next c1) in
  let c3 := respond _ (glfwMakeContextCurrent (answer c2)) (next c2) in
  let c4 := respond _ (glfwSwapInterval 0) (next c3) in
  let c5 := respond _ glewInit (next c4) in
  answer c1 <> 0 ->
  answer c2 <> NULL ->
  answer c5 <> GLEW_OK ->
  exists w',
    main frames file w = (Value (-1), w') /\
    calls w' = (calls w ++
                [Call glfwInit;
                 Call (glfwCreateWindow 640 480 "Hello World" NULL NULL);
                 Call (glfwMakeContextCurrent (answer c2));
                 Call (glfwSwapInterval 0);
                 Call glewInit])%list.
Proof.
  intros c1 c2 c3 c4 c5 H1 H2 H5. eexists. unfold main. step_call. fold c1.
  destruct (answer c1 =? 0) eqn:E1; [apply Z.eqb_eq in E1; contradiction|].
  step_call. fold c2.
  destruct (answer c2 =? NULL) eqn:E2; [apply Z.eqb_eq in E2; contradiction|].
  do 3 step_call. fold c3. fold c4. fold c5.
  destruct (answer c5 =? GLEW_OK) eqn:E5; [apply Z.eqb_eq in E5; contradiction|].
  cbn [negb]. unfold mbind at 1. cbn [cerr_put].
  split; [reflexivity|]. unfold log. cbn [calls].
  rewrite <- !List.app_assoc. reflexivity.
Qed.

(** [run_ParseShader] returns what [ParseShader] returns on the files of
    the world, and leaves the world as it is. *)
Lemma run_ParseShader_value (filepath : string) (w w' : world D)
    (source : ShaderProgramSource) :
  run_ParseShader filepath w = (Value source, w') ->
  ParseShader (files w) filepath = Returns source /\ w' = w.
Proof.
  unfold run_ParseShader. generalize (ParseShader (files w) filepath).
  intros [src|i]; [intros [= <- <-]; auto | discriminate].
Qed.

(** When [ParseShader] returns, so does [run_ParseShader]. *)
Lemma run_ParseShader_returns (filepath : string) (w : world D)
    (source : ShaderProgramSource) :
  ParseShader (files w) filepath = Returns source ->
  run_ParseShader filepath w = (Value source, w).
Proof.
  unfold run_ParseShader. intros ->. reflexivity.
Qed.

(** [main] when the three initialisations succeed: it has made the calls
    of [main_prelude] when it comes to read the shader file, and goes on from
    there. *)
Lemma main_from_prelude frames file (w : world D) :
  let c1 := respond _ glfwInit (lib w) in
  let c2 := respond _ (glfwCreateWindow 640 480 "Hello World" NULL NULL) (next c1) in
  let c3 := respond _ (glfwMakeContextCurrent (answer c2)) (next c2) in
  let c4 := respond _ (glfwSwapInterval 0) (next c3) in
  let c5 := respond _ glewInit (next c4) in
  let c6 := respond _ (glGetString GL_VERSION) (next c5) in
  answer c1 <> 0 ->
  answer c2 <> NULL ->
  answer c5 = GLEW_OK ->
  exists w0 : world D,
    main_prelude w = (Value (answer c2), w0) /\
    files w0 = files w /\
    cout w0 = cout w ++ answer c6 ++ endl /\
    cerr w0 = cerr w /\
    main frames file w =
    (source <- run_ParseShader "res/shaders/basic.shader" ;;
     shader <- CreateShader (VertexSource source) (FragmentSource source) ;;
     api (glUseProgram shader) ;;
     location <- GLCall (api (glGetUniformLocation shader "u_Color"))
                   ("int location = glGetUniformLocation(shader, "
                    ++ quoted "u_Color" ++ ")") file 162 ;;
     ASSERT (negb (location =? -1)) ;;
     GLCall (api (glUniform4f location (f32_lit 5 10) (f32_lit 3 10)
                              (f32_lit 8 10) (f32_lit 1 1)))
            "glUniform4f(location, 0.5f, 0.3f, 0.8f, 1.0f)" file 164 ;;
     previousTime <- api glfwGetTime ;;
     render_loop frames file (answer c2) location
       (mk_frame_state f32_zero (f32_lit 5 100)
                       f32_zero (f32_lit 1 100)
                       (f32_lit 1 1) (f32_lit 3 10)
                       previousTime 0) ;;
     api (glDeleteProgram shader) ;;
     api glfwTerminate ;;
     ret 0) w0.
Proof.
  intros c1 c2 c3 c4 c5 c6 H1 H2 H5. eexists. split.
  - unfold main_prelude. do 6 step_call.
    unfold mbind at 1. cbn [cout_put]. cbv zeta.
    do 8 step_call. unfold ret. reflexivity.
  - cbn [files cout cerr]. split; [reflexivity|]. split; [reflexivity|].
    split; [reflexivity|].
    unfold main. step_call. fold c1.
    destruct (answer c1 =? 0) eqn:E1; [apply Z.eqb_eq in E1; contradiction|].
    step_call. fold c2.
    destruct (answer c2 =? NULL) eqn:E2; [apply Z.eqb_eq in E2; contradiction|].
    do 3 step_call. fold c3. fold c4. fold c5. rewrite H5.
    cbn [Z.eqb GLEW_OK negb]. step_call. fold c6.
    unfold mbind at 1. cbn [cout_put]. cbv zeta.
    do 8 step_call. reflexivity.
Qed.

(** X16. Whenever [main] returns 0, the last two calls it made are
    [glDeleteProgram] on the program that [CreateShader] returned for the
    two sources read from the shader file, and [glfwTerminate]. *)
Theorem main_success_cleans_up frames file (w w' : world D) :
  main frames file w = (Value 0, w') ->
  exists (window : Z) (w0 : world D) (source : ShaderProgramSource)
         (shader : GLuint) (w1 : world D) (before : list logged),
    main_prelude w = (Value window, w0) /\
    ParseShader (files w0) "res/shaders/basic.shader" = Returns source /\
    CreateShader (VertexSource source) (FragmentSource source) w0
    = (Value shader, w1) /\
    calls w' = (before ++ [Call (glDeleteProgram shader); Call glfwTerminate])%list.
Proof.
  intros H.
  destruct (main_exit_code _ _ _ _ _ H) as [(_ & H1 & H2 & H5) | (Hc & _)];
    [|discriminate].
  destruct (main_from_prelude frames file w H1 H2 H5)
    as (w0 & Hp & _ & _ & _ & Hm).
  rewrite Hm in H.
  apply mbind_value in H as (source & w0' & Hs & H).
  apply run_ParseShader_value in Hs as [Hs ->].
  apply mbind_value in H as (shader & w1 & Hcs & H).
  do 6 (apply mbind_value in H as (? & ? & _ & H)).
  revert H. do 2 step_call. intros [= <-].
  eexists; exists w0, source, shader, w1; eexists.
  split; [exact Hp|]. split; [exact Hs|]. split; [exact Hcs|].
  unfold log. cbn [calls]. rewrite <- List.app_assoc. reflexivity.
Qed.

(** [main] up to the reading of the shader file, when the three
    initialisations succeed: the world in which [ParseShader] runs differs
    from the first in the libraries' state, the calls made, the flags raised
    and the version line on [std::cout]. *)
Lemma main_after_init frames file (w : world D) :
  let c1 := respond _ glfwInit (lib w) in
  let c2 := respond _ (glfwCreateWindow 640 480 "Hello World" NULL NULL) (next c1) in
  let c3 := respond _ (glfwMakeContextCurrent (answer c2)) (next c2) in
  let c4 := respond _ (glfwSwapInterval 0) (next c3) in
  let c5 := respond _ glewInit (next c4) in
  let c6 := respond _ (glGetString GL_VERSION) (next c5) in
  answer c1 <> 0 ->
  answer c2 <> NULL ->
  answer c5 = GLEW_OK ->
  exists (w0 : world D) (k : ShaderProgramSource -> M D Z),
    main frames file w = mbind (run_ParseShader "res/shaders/basic.shader") k w0 /\
    files w0 = files w /\
    cout w0 = cout w ++ answer c6 ++ endl /\
    cerr w0 = cerr w /\
    k = (fun source =>
           shader <- CreateShader (VertexSource source) (FragmentSource source) ;;
           api (glUseProgram shader) ;;
           location <- GLCall (api (glGetUniformLocation shader "u_Color"))
                         ("int location = glGetUniformLocation(shader, "
                          ++ quoted "u_Color" ++ ")") file 162 ;;
           ASSERT (negb (location =? -1)) ;;
           GLCall (api (glUniform4f location (f32_lit 5 10) (f32_lit 3 10)
                                    (f32_lit 8 10) (f32_lit 1 1)))
                  "glUniform4f(location, 0.5f, 0.3f, 0.8f, 1.0f)" file 164 ;;
           previousTime <- api glfwGetTime ;;
           render_loop frames file (answer c2) location
             (mk_frame_state f32_zero (f32_lit 5 100)
                             f32_zero (f32_lit 1 100)
                             (f32_lit 1 1) (f32_lit 3 10)
                             previousTime 0) ;;
           api (glDeleteProgram shader) ;;
           api glfwTerminate ;;
           ret 0).
Proof.
  intros c1 c2 c3 c4 c5 c6 H1 H2 H5. unfold main. step_call. fold c1.
  destruct (answer c1 =? 0) eqn:E1; [apply Z.eqb_eq in E1; contradiction|].
  step_call. fold c2.
  destruct (answer c2 =? NULL) eqn:E2; [apply Z.eqb_eq in E2; contradiction|].
  do 3 step_call. fold c3. fold c4. fold c5. rewrite H5.
  cbn [Z.eqb GLEW_OK negb]. step_call. fold c6.
  unfold mbind at 1. cbn [cout_put]. cbv zeta.
  do 8 step_call.
  do 2 eexists. split; [reflexivity|]. cbn [files cout cerr]. repeat split.
Qed.

(** X17. A shader file with a content line before its first section marker
    brings the whole program down: with all three initialisations done,
    [main] ends in undefined behaviour, the out-of-bounds subscript of
    [ParseShader]. *)
Theorem main_undefined_on_unheaded_file frames file (w : world D) :
  let c1 := respond _ glfwInit (lib w) in
  let c2 := respond _ (glfwCreateWindow 640 480 "Hello World" NULL NULL) (next c1) in
  let c3 := respond _ (glfwMakeContextCurrent (answer c2)) (next c2) in
  let c4 := respond _ (glfwSwapInterval 0) (next c3) in
  let c5 := respond _ glewInit (next c4) in
  answer c1 <> 0 ->
  answer c2 <> NULL ->
  answer c5 = GLEW_OK ->
  headed (stream_lines (ifstream_open (files w) "res/shaders/basic.shader")) = false ->
  fst (main frames file w) = Undefined.
Proof.
  intros c1 c2 c3 c4 c5 H1 H2 H5 Hh.
  destruct (main_after_init frames file w H1 H2 H5)
    as (w0 & k & -> & Hfiles & _).
  unfold mbind, run_ParseShader. rewrite Hfiles.
  rewrite ParseShader_as_lines, not_headed_out_of_bounds by assumption.
  reflexivity.
Qed.

(** X18. When the program that [CreateShader] returned has no uniform
    [u_Color] (the call of [glGetUniformLocation] that [main] makes is
    answered -1 and raises no flag), [main] stops in the breakpoint trap of
    [ASSERT(location != -1)] before the first frame, and that check prints
    nothing: [std::cout] holds the version line and no more, and
    [std::cerr] what the compilation of the shaders left there. *)
Theorem main_traps_without_uniform frames file (w w0 w1 : world D)
    (window : Z) (source : ShaderProgramSource) (shader : GLuint) :
  let c1 := respond _ glfwInit (lib w) in
  let c2 := respond _ (glfwCreateWindow 640 480 "Hello World" NULL NULL) (next c1) in
  let c3 := respond _ (glfwMakeContextCurrent (answer c2)) (next c2) in
  let c4 := respond _ (glfwSwapInterval 0) (next c3) in
  let c5 := respond _ glewInit (next c4) in
  let c6 := respond _ (glGetString GL_VERSION) (next c5) in
  answer c1 <> 0 ->
  answer c2 <> NULL ->
  answer c5 = GLEW_OK ->
  main_prelude w = (Value window, w0) ->
  ParseShader (files w0) "res/shaders/basic.shader" = Returns source ->
  CreateShader (VertexSource source) (FragmentSource source) w0
  = (Value shader, w1) ->
  let use := respond _ (glUseProgram shader) (lib w1) in
  let loc := respond _ (glGetUniformLocation shader "u_Color") (next use) in
  answer loc = -1 ->
  raised loc = [] ->
  exists w',
    main frames file w = (Trapped, w') /\
    cout w' = cout w ++ answer c6 ++ endl /\
    cerr w' = cerr w1 /\
    lib w' = next loc.
Proof.
  intros c1 c2 c3 c4 c5 c6 H1 H2 H5 Hp Hs Hcs use loc Hanswer Hraised.
  destruct (main_from_prelude frames file w H1 H2 H5)
    as (w0' & Hp' & _ & Hcout & _ & ->).
  rewrite Hp in Hp'. injection Hp' as _ <-.
  destruct (CreateShader_value _ _ _ _ _ Hcs) as (_ & Hcout1 & _).
  unfold mbind at 1. rewrite (run_ParseShader_returns _ _ _ Hs).
  unfold mbind at 1. rewrite Hcs.
  step_call. unfold mbind at 1. rewrite GLCall_api by reflexivity. cbv zeta.
  cbn [lib flags calls cout cerr files]. fold use. fold loc.
  rewrite Hraised, Hanswer.
  eexists. split; [reflexivity|]. cbn [cout cerr lib].
  split; [rewrite Hcout1; exact Hcout|]. split; reflexivity.
Qed.

(* ===================================================================== *)
(** ** The frame counter and the colour animation *)
(* ===================================================================== *)

Lemma float_eqb_eq a b : float_eqb a b = true -> a = b.
Proof.
  destruct a, b; simpl; try discriminate; try reflexivity.
  - intros H. apply Bool.eqb_prop in H. congruence.
  - intros H. apply Bool.eqb_prop in H. congruence.
  - intros H. apply andb_prop in H as [H He]. apply andb_prop in H as [Hs Hm].
    apply Bool.eqb_prop in Hs. apply Pos.eqb_eq in Hm. apply Z.eqb_eq in He.
    congruence.
Qed.

Lemma channel_eqb_eq a b : channel_eqb a b = true -> a = b.
Proof.
  destruct a, b. unfold channel_eqb. cbn [fst snd]. intros H.
  apply andb_prop in H as [H1 H2].
  apply float_eqb_eq in H1, H2. congruence.
Qed.

Lemma among_all (P : float * float -> bool) states channel :
  forallb P states = true -> among states channel = true -> P channel = true.
Proof.
  unfold among. intros Hall H. apply existsb_exists in H as (x & Hin & Heq).
  apply channel_eqb_eq in Heq. subst x.
  rewrite forallb_forall in Hall. auto.
Qed.

(** The colours after a frame are the colours before it, each channel moved
    one step. *)
Lemma frame_colours file window location (st st' : frame_state) (w w' : world D) :
  frame file window location st w = (Value st', w') ->
  (r st', r_increment st') = channel_step (f32_lit 5 100) (r st, r_increment st) /\
  (g st', g_increment st') = channel_step (f32_lit 1 100) (g st, g_increment st) /\
  (b st', b_increment st') = channel_step (f32_lit 3 100) (b st, b_increment st).
Proof.
  unfold frame. intros H.
  do 6 (apply mbind_value in H as (? & ? & _ & H)).
  injection H as <- _. repeat split.
Qed.

(** X19. The colour animation stays on a closed course: the colours [main]
    starts with are on it, every frame that completes keeps them on it, and
    on it red stays within [-0.06, 1.06], green within [-0.02, 1.02] and
    blue within [-0.04, 1.3]. *)
Theorem frame_keeps_colours_on_course :
  (forall previousTime : double,
      colours_on_course
        (mk_frame_state f32_zero (f32_lit 5 100) f32_zero (f32_lit 1 100)
                        (f32_lit 1 1) (f32_lit 3 10) previousTime 0) = true) /\
  (forall file window location (st st' : frame_state) (w w' : world D),
      colours_on_course st = true ->
      frame file window location st w = (Value st', w') ->
      colours_on_course st' = true) /\
  (forall st : frame_state,
      colours_on_course st = true ->
      f32_between (f32_lit (-6) 100) (f32_lit 106 100) (r st) = true /\
      f32_between (f32_lit (-2) 100) (f32_lit 102 100) (g st) = true /\
      f32_between (f32_lit (-4) 100) (f32_lit 13 10) (b st) = true).
Proof.
  split; [|split].
  - intros previousTime. vm_compute. reflexivity.
  - intros file window location st st' w w' Hst H.
    apply frame_colours in H as (Hr & Hg & Hb).
    unfold colours_on_course in *. rewrite Hr, Hg, Hb.
    apply andb_prop in Hst as [Hst Hbl]. apply andb_prop in Hst as [Hre Hgr].
    rewrite (among_all (fun c => among red_states (channel_step (f32_lit 5 100) c))
               red_states _ ltac:(vm_compute; reflexivity) Hre).
    rewrite (among_all (fun c => among green_states (channel_step (f32_lit 1 100) c))
               green_states _ ltac:(vm_compute; reflexivity) Hgr).
    rewrite (among_all (fun c => among blue_states (channel_step (f32_lit 3 100) c))
               blue_states _ ltac:(vm_compute; reflexivity) Hbl).
    reflexivity.
  - intros st Hst. unfold colours_on_course in Hst.
    apply andb_prop in Hst as [Hst Hbl]. apply andb_prop in Hst as [Hre Hgr].
    repeat split.
    + exact (among_all (fun c => f32_between (f32_lit (-6) 100) (f32_lit 106 100) (fst c))
               red_states _ ltac:(vm_compute; reflexivity) Hre).
    + exact (among_all (fun c => f32_between (f32_lit (-2) 100) (f32_lit 102 100) (fst c))
               green_states _ ltac:(vm_compute; reflexivity) Hgr).
    + exact (among_all (fun c => f32_between (f32_lit (-4) 100) (f32_lit 13 10) (fst c))
               blue_states _ ltac:(vm_compute; reflexivity) Hbl).
Qed.

(** X20. One call of [GetFPS] below the overflow of the counter: it reads
    the clock once and either counts the frame, printing nothing, or prints
    the frames counted since the last report, this one included, and starts
    again from 0 at the time just read. The counter stays between 0 and
    [INT_MAX], and a clock that reads NaN never triggers a report. *)
Theorem GetFPS_counts_or_reports (frameCount : Z) (previousTime : double)
    (w : world D) :
  0 <= frameCount < INT_MAX ->
  let now := answer (respond _ glfwGetTime (lib w)) in
  exists count time w',
    GetFPS frameCount previousTime w = (Value (count, time), w') /\
    calls w' = (calls w ++ [Call glfwGetTime])%list /\
    ((count = frameCount + 1 /\ time = previousTime /\ cout w' = cout w) \/
     (count = 0 /\ time = now /\
      cout w' = cout w ++ "FPS: " ++ decimal (frameCount + 1) ++ endl)) /\
    0 <= count <= INT_MAX /\
    (now = S754_nan -> cout w' = cout w).
Proof.
  intros Hfc now. unfold GetFPS. step_call. fold now.
  destruct (frameCount =? INT_MAX) eqn:E; [apply Z.eqb_eq in E; lia|].
  unfold mbind at 1. unfold ret at 1.
  destruct (f64_le f64_one (f64_sub now previousTime)) eqn:Hle.
  - unfold mbind, cout_put, ret. cbn [lib flags calls cout cerr files].
    do 3 eexists. split; [reflexivity|]. cbn [calls cout].
    split; [reflexivity|]. split; [right; auto|]. split; [unfold INT_MAX; lia|].
    intros Hnan. rewrite Hnan in Hle. destruct previousTime; discriminate.
  - unfold ret. do 3 eexists. split; [reflexivity|]. cbn [calls cout].
    split; [reflexivity|]. split; [left; auto|]. split; [lia|]. reflexivity.
Qed.

End WrapperFacts.

(* ===================================================================== *)
(** ** The claims at work on the scripted libraries *)
(* ===================================================================== *)

Lemma CompileShader_reports_failure_witness :
  (exists w',
      CompileShader GL_VERTEX_SHADER "junk" (boot (healthy 0) basic_shader)
      = (Value 0, w') /\
      cerr w' = "Failed to compile vertex" ++ Str.endl ++ script_log ++ Str.endl) /\
  (exists w',
      CompileShader GL_FRAGMENT_SHADER "void main() {}"
                    (boot (healthy 0) basic_shader)
      = (Value 1, w') /\
      cerr w' = "").
Proof.
  split.
  - destruct (proj1 (CompileShader_reports_failure
                       Vertex "junk" (boot (healthy 0) basic_shader)))
      as (w' & H & Hcerr & _); [reflexivity | reflexivity |].
    exists w'. split; [exact H | exact Hcerr].
  - destruct (proj2 (CompileShader_reports_failure
                       Fragment "void main() {}" (boot (healthy 0) basic_shader)))
      as (handle & w' & H & Hh & _ & Hcerr & _); [discriminate | discriminate |].
    exists w'. rewrite Hh in H. split; [exact H | exact Hcerr].
Defined.

Lemma GLCall_drains_runs_traps_witness :
  let w := mk_world (mk_script true true true false 1 1 [])
                    [1280%positive; 1281%positive] [] "" ""
                    (single_file "res/shaders/basic.shader" basic_shader) in
  fst (GLCall (api (glDrawElements GL_TRIANGLES 6 GL_UNSIGNED_INT NULL))
              "glDrawElements(GL_TRIANGLES, 6, GL_UNSIGNED_INT, nullptr)"
              "Application.cpp" 206 w)
  = Trapped.
Proof.
  intros w.
  destruct (GLCall_drains_runs_traps
              (api (glDrawElements GL_TRIANGLES 6 GL_UNSIGNED_INT NULL))
              "glDrawElements(GL_TRIANGLES, 6, GL_UNSIGNED_INT, nullptr)"
              "Application.cpp" 206 w)
    as (w0 & Hclear & Hflags & Hcall).
  assert (Hw0 : GLClearError w
                = (Value tt,
                   mk_world (lib w) []
                            [Call glGetError; Call glGetError; Call glGetError]
                            "" "" (files w)))
    by reflexivity.
  rewrite Hw0 in Hclear. injection Hclear as <-.
  specialize (Hcall tt _ eq_refl). cbn [flags] in Hcall.
  rewrite Hcall. reflexivity.
Defined.

(** C3. With libraries that keep no information log (the log length they
    report is 0, also for a shader that failed to compile), [CompileShader]
    on a source that does not compile writes the line naming the stage to
    [std::cerr] and then reads the log from a buffer of no bytes, which is
    undefined behaviour: no log is written, the shader object is not
    deleted, and the sentinel 0 is not returned. With the scripted libraries,
    which keep a log, the same source gives the log, the deletion and 0. *)
Theorem CompileShader_failure_without_log_undefined :
  let run := CompileShader (libraries := no_log) GL_VERTEX_SHADER "junk"
                           (boot (healthy 0) basic_shader) in
  let logged := CompileShader (libraries := scripted) GL_VERTEX_SHADER "junk"
                              (boot (healthy 0) basic_shader) in
  fst run = Undefined /\
  cerr (snd run) = "Failed to compile vertex" ++ Str.endl /\
  calls (snd run) = [Call (glCreateShader GL_VERTEX_SHADER);
                     Call (glShaderSource 1 1 ["junk"]);
                     Call (glCompileShader 1);
                     Call (glGetShaderiv 1 GL_COMPILE_STATUS);
                     Call (glGetShaderiv 1 GL_INFO_LOG_LENGTH);
                     Call (glGetShaderInfoLog 1 0)] /\
  fst logged = Value 0 /\
  cerr (snd logged) = "Failed to compile vertex" ++ Str.endl
                      ++ script_log ++ Str.endl /\
  last (calls (snd logged)) (Call glGetError) = Call (glDeleteShader 1).
Proof.
  cbv zeta. repeat split; vm_compute; reflexivity.
Qed.

Lemma CreateShader_attaches_both_witness :
  exists w' before,
    CreateShader "junk" "void main() {}" (boot (healthy 0) basic_shader)
    = (Value 1, w') /\
    calls w' = (before ++
                [Call (glAttachShader 1 0);
                 Call (glAttachShader 1 3);
                 Call (glLinkProgram 1);
                 Call (glValidateProgram 1);
                 Call (glDeleteShader 0);
                 Call (glDeleteShader 3)])%list.
Proof.
  set (w := boot (healthy 0) basic_shader).
  set (w1 := snd (api glCreateProgram w)).
  set (w2 := snd (CompileShader GL_VERTEX_SHADER "junk" w1)).
  set (w3 := snd (CompileShader GL_FRAGMENT_SHADER "void main() {}" w2)).
  destruct (proj1 (proj2 (CreateShader_attaches_both "junk" "void main() {}" w))
              0 w2 3 w3)
    as (w' & H & Hcalls & _).
  - vm_compute. reflexivity.
  - vm_compute. reflexivity.
  - exists w', (calls w3). split; [exact H | exact Hcalls].
Defined.

(** C9. With a [glfwInit] that fails, and with a window that cannot be
    created, [main] returns -1 having written nothing to [std::cerr] (nor to
    [std::cout]); only the failure of [glewInit] is reported there. *)
Theorem main_init_failure_not_reported :
  let silent (d : script) :=
    exists w',
      main 0 "Application.cpp" (boot d basic_shader) = (Value (-1), w') /\
      cerr w' = "" /\ cout w' = "" in
  silent (mk_script false true true true 0 1 []) /\
  silent (mk_script true false true true 0 1 []) /\
  exists w',
    main 0 "Application.cpp" (boot (mk_script true true false true 0 1 []) basic_shader)
    = (Value (-1), w') /\
    cerr w' = "[ERROR] Error initializing GLEW" ++ Str.endl.
Proof.
  cbv zeta. repeat split; eexists; (split; [vm_compute; reflexivity|]); repeat split.
Qed.

(** A run in which every initialisation succeeds and the window is closed
    after two frames returns 0. *)
Example main_runs_to_completion :
  fst (main 2 "Application.cpp" (boot (healthy 2) basic_shader)) = Value 0.
Proof. vm_compute. reflexivity. Qed.

(** A failed vertex compilation: the sentinel 0 is attached all the same. *)
Example CreateShader_attaches_sentinel :
  exists w',
    CreateShader "junk" "void main() {}" (boot (healthy 0) basic_shader)
    = (Value 1, w') /\
    In (Call (glAttachShader 1 0)) (calls w').
Proof.
  eexists. split; [vm_compute; reflexivity|]. cbn. tauto.
Qed.

(* ===================================================================== *)
(** ** The further facts at work on the scripted libraries *)
(* ===================================================================== *)

Lemma GLCall_ignores_stale_flags_witness :
  fst (GLCall (api (glDrawElements GL_TRIANGLES 6 GL_UNSIGNED_INT NULL))
              "glDrawElements(GL_TRIANGLES, 6, GL_UNSIGNED_INT, nullptr)"
              "Application.cpp" 206
              (with_flags faulty_world [1280%positive; 1281%positive]))
  = fst (GLCall (api (glDrawElements GL_TRIANGLES 6 GL_UNSIGNED_INT NULL))
                "glDrawElements(GL_TRIANGLES, 6, GL_UNSIGNED_INT, nullptr)"
                "Application.cpp" 206
                (with_flags faulty_world [])).
Proof.
  apply (GLCall_ignores_stale_flags
           (glDrawElements GL_TRIANGLES 6 GL_UNSIGNED_INT NULL)
           "glDrawElements(GL_TRIANGLES, 6, GL_UNSIGNED_INT, nullptr)"
           "Application.cpp" 206 faulty_world [1280%positive; 1281%positive]).
  reflexivity.
Defined.

Lemma GLCall_traps_iff_call_raises_witness :
  fst (GLCall (api (glDrawElements GL_TRIANGLES 6 GL_UNSIGNED_INT NULL))
              "glDrawElements(GL_TRIANGLES, 6, GL_UNSIGNED_INT, nullptr)"
              "Application.cpp" 206 faulty_world)
  = Trapped.
Proof.
  apply (proj1 (GLCall_traps_iff_call_raises
                  (glDrawElements GL_TRIANGLES 6 GL_UNSIGNED_INT NULL)
                  "glDrawElements(GL_TRIANGLES, 6, GL_UNSIGNED_INT, nullptr)"
                  "Application.cpp" 206 faulty_world eq_refl)).
  discriminate.
Defined.

Lemma CompileShader_leaves_flags_raised_witness :
  exists w',
    CompileShader GL_VERTEX_SHADER "junk" faulty_world = (Value 0, w') /\
    flags w' = [1280%positive; 1281%positive].
Proof.
  destruct (proj1 (proj2 (CompileShader_leaves_flags_raised
                            GL_VERTEX_SHADER "junk" faulty_world)))
    as (w' & H & Hflags); [reflexivity | reflexivity |].
  exists w'. split; [exact H | exact Hflags].
Defined.

Lemma CompileShader_other_stage_named_fragment_witness :
  exists w',
    CompileShader 36313 "junk" (boot (healthy 0) basic_shader) = (Value 0, w') /\
    cerr w' = "Failed to compile fragment" ++ Str.endl ++ script_log ++ Str.endl.
Proof.
  destruct (CompileShader_other_stage_named_fragment
              36313 "junk" (boot (healthy 0) basic_shader))
    as (w' & H & Hcerr); [discriminate | reflexivity | reflexivity |].
  exists w'. split; [exact H | exact Hcerr].
Defined.

Lemma CreateShader_leaves_flags_raised_witness :
  exists w',
    CreateShader "junk" "void main() {}" faulty_world = (Value 1, w') /\
    flags w' = [1280%positive; 1281%positive].
Proof.
  set (w1 := snd (api glCreateProgram faulty_world)).
  set (w2 := snd (CompileShader GL_VERTEX_SHADER "junk" w1)).
  set (w3 := snd (CompileShader GL_FRAGMENT_SHADER "void main() {}" w2)).
  destruct (CreateShader_leaves_flags_raised
              "junk" "void main() {}" faulty_world 0 3 w2 w3)
    as (w' & H & Hflags & _).
  - vm_compute. reflexivity.
  - vm_compute. reflexivity.
  - exists w'. split; [exact H | exact Hflags].
Defined.

Lemma main_glewInit_failure_skips_terminate_witness :
  exists w',
    main 0 "Application.cpp"
         (boot (mk_script true true false true 0 1 []) basic_shader)
    = (Value (-1), w') /\
    calls w' = [Call glfwInit;
                Call (glfwCreateWindow 640 480 "Hello World" NULL NULL);
                Call (glfwMakeContextCurrent 4096);
                Call (glfwSwapInterval 0);
                Call glewInit].
Proof.
  destruct (main_glewInit_failure_skips_terminate
              0%nat "Application.cpp"
              (boot (mk_script true true false true 0 1 []) basic_shader))
    as (w' & H & Hcalls); [discriminate | discriminate | discriminate |].
  exists w'. split; [exact H | exact Hcalls].
Defined.

Lemma main_success_cleans_up_witness :
  exists (window : Z) (w0 : world script) (source : ShaderProgramSource)
         (shader : GLuint) (w1 : world script) (before : list logged),
    main_prelude (boot (healthy 2) basic_shader) = (Value window, w0) /\
    ParseShader (files w0) "res/shaders/basic.shader" = Returns source /\
    CreateShader (VertexSource source) (FragmentSource source) w0
    = (Value shader, w1) /\
    calls (snd (main 2 "Application.cpp" (boot (healthy 2) basic_shader)))
    = (before ++ [Call (glDeleteProgram shader); Call glfwTerminate])%list.
Proof.
  apply (main_success_cleans_up 2%nat "Application.cpp"
                                (boot (healthy 2) basic_shader)).
  vm_compute. reflexivity.
Defined.

Lemma main_undefined_on_unheaded_file_witness :
  fst (main 2 "Application.cpp"
            (boot (healthy 2) ("// basic shader" ++ Str.endl ++ basic_shader)))
  = Undefined.
Proof.
  apply (main_undefined_on_unheaded_file
           2%nat "Application.cpp"
           (boot (healthy 2) ("// basic shader" ++ Str.endl ++ basic_shader)));
    try discriminate; vm_compute; reflexivity.
Defined.

Lemma main_traps_without_uniform_witness :
  exists w',
    main (libraries := no_uniform) 2 "Application.cpp"
         (boot (healthy 2) basic_shader)
    = (Trapped, w') /\
    cout w' = "3.3.0" ++ Str.endl.
Proof.
  set (w := boot (healthy 2) basic_shader).
  set (w0 := snd (main_prelude (libraries := no_uniform) w)).
  set (source := match ParseShader (files w0) "res/shaders/basic.shader" with
                 | Returns read => read
                 | OutOfBounds _ => mk_ShaderProgramSource "" ""
                 end).
  set (w1 := snd (CreateShader (libraries := no_uniform)
                               (VertexSource source) (FragmentSource source) w0)).
  destruct (main_traps_without_uniform
              (libraries := no_uniform) 2%nat "Application.cpp" w w0 w1
              4096 source 3)
    as (w' & H & Hcout & _).
  - discriminate.
  - discriminate.
  - reflexivity.
  - vm_compute. reflexivity.
  - vm_compute. reflexivity.
  - vm_compute. reflexivity.
  - reflexivity.
  - reflexivity.
  - exists w'. split; [exact H | exact Hcout].
Defined.

Lemma frame_keeps_colours_on_course_witness :
  exists st',
    fst (frame "Application.cpp" 4096 0
               (mk_frame_state f32_zero (f32_lit 5 100) f32_zero (f32_lit 1 100)
                               (f32_lit 1 1) (f32_lit 3 10) (S754_zero false) 0)
               (boot (healthy 2) basic_shader))
    = Value st' /\
    colours_on_course st' = true /\
    f32_between (f32_lit (-4) 100) (f32_lit 13 10) (b st') = true.
Proof.
  eexists. split; [vm_compute; reflexivity|].
  assert (colours_on_course
            {| r := S754_finite false 13421773 (-28);
               r_increment := S754_finite false 13421773 (-28);
               g := S754_finite false 10737418 (-30);
               g_increment := S754_finite false 10737418 (-30);
               b := S754_finite false 10905190 (-23);
               b_increment := S754_finite false 10066330 (-25);
               previousTime := S754_zero false;
               frameCount := 1 |} = true) as Hon.
  { refine (proj1 (proj2 (@frame_keeps_colours_on_course script scripted))
              "Application.cpp" 4096 0
              (mk_frame_state f32_zero (f32_lit 5 100) f32_zero (f32_lit 1 100)
                              (f32_lit 1 1) (f32_lit 3 10) (S754_zero false) 0)
              _ (boot (healthy 2) basic_shader)
              (snd (frame "Application.cpp" 4096 0
                      (mk_frame_state f32_zero (f32_lit 5 100) f32_zero
                                      (f32_lit 1 100) (f32_lit 1 1) (f32_lit 3 10)
                                      (S754_zero false) 0)
                      (boot (healthy 2) basic_shader)))
              _ _);
      vm_compute; reflexivity. }
  split; [exact Hon|].
  apply (proj2 (proj2 (@frame_keeps_colours_on_course script scripted)) _ Hon).
Defined.

Lemma GetFPS_counts_or_reports_witness :
  exists w',
    GetFPS 59 (S754_zero false) (boot (healthy 2) basic_shader)
    = (Value (60, S754_zero false), w').
Proof.
  destruct (GetFPS_counts_or_reports 59 (S754_zero false)
                                     (boot (healthy 2) basic_shader))
    as (count & time & w' & H & _); [unfold INT_MAX; lia|].
  pose proof H as Hrun. vm_compute in Hrun. injection Hrun as Hcount Htime _.
  exists w'. rewrite H. subst count time. reflexivity.
Defined.
